(** * Lazy mode (torch/csrc/lazy/core/lazy_mode.cpp)

    A shallow embedding of the scoped lazy-mode controller: the thread-local
    nesting counter, [LazyModeEnter] / [LazyModeExit], the tensor preparation
    helper [PrepareTensorForMetaKernel] and the boxed fallback
    [unlazy_handler], followed by the properties the specification states
    about them.

    The functions of the translation unit are written in a small
    state-and-exception monad over the state of one thread.  Collaborators
    that live in other translation units (the graph executor, the
    dispatcher's redispatch, the eager fallback) are section variables: any
    effectful function of the right type may stand for them.  What the
    translation unit does that can be seen from outside (a warning logged,
    a routing flag written, a collaborator called) is also noted in a trace
    kept in the state, so that calls can be counted. *)

From Stdlib Require Import ZArith List String Lia.
From stdpp Require Import base decidable countable gmap sets list strings.

Local Open Scope Z_scope.
Set Warnings "-clear-no-such-hyp".

(** ** Dispatch keys and the thread-local key sets *)

(** c10::DispatchKey.  The translation unit names two keys; [OtherKey]
    stands for every other member of the enumeration. *)
Inductive DispatchKey :=
| Lazy
| TESTING_ONLY_GenericWrapper
| OtherKey (n : nat).

#[global] Instance DispatchKey_eq_dec : EqDecision DispatchKey.
Proof. solve_decision. Defined.

#[global] Instance DispatchKey_countable : Countable DispatchKey.
Proof.
  refine (inj_countable'
            (λ k, match k with
                  | Lazy => 0%nat
                  | TESTING_ONLY_GenericWrapper => 1%nat
                  | OtherKey n => S (S n)
                  end)
            (λ n, match n with
                  | O => Lazy
                  | S O => TESTING_ONLY_GenericWrapper
                  | S (S m) => OtherKey m
                  end) _).
  intros []; reflexivity.
Defined.

(** c10::DispatchKeySet, as a finite set of keys. *)
Abbreviation DispatchKeySet := (gset DispatchKey).

(** c10::impl::LocalDispatchKeySet: the keys a thread forces into, and
    masks out of, every dispatch. *)
Record LocalDispatchKeySet := mkLocalDispatchKeySet {
  included_ : DispatchKeySet;
  excluded_ : DispatchKeySet
}.

(** ** Devices and tensors *)

(** c10::DeviceType; [kLazy] is the device type of lazy tensors. *)
Inductive DeviceType :=
| kCPU
| kCUDA
| kLazy
| kOtherDeviceType (n : nat).

#[global] Instance DeviceType_eq_dec : EqDecision DeviceType.
Proof. solve_decision. Defined.

(** c10::Device: a device type and an optional index
    ([has_index] is [index != -1] in c10). *)
Record Device := mkDevice {
  type : DeviceType;
  index : option Z
}.

#[global] Instance Device_eq_dec : EqDecision Device.
Proof. solve_decision. Defined.

Definition has_index (d : Device) : bool :=
  match index d with Some _ => true | None => false end.

(** Modelled from the spec: torch::lazy::BackendDevice
    (torch/csrc/lazy/backend/backend_device.h is not among the sources).
    The specification calls it the backend's canonical representation of a
    device, convertible from and to the generic one; it is modelled as a
    wrapper of the generic device it was resolved from. *)
Record BackendDevice := mkBackendDevice {
  aten_device : Device
}.

#[global] Instance BackendDevice_eq_dec : EqDecision BackendDevice.
Proof. solve_decision. Defined.

(** Modelled from the spec: atenDeviceToBackendDevice, step (2) of Exit:
    resolve the device to the backend's representation. *)
Definition atenDeviceToBackendDevice (device : Device) : BackendDevice :=
  mkBackendDevice device.

(** Modelled from the spec: at::Tensor and torch::lazy::LazyTensor
    (ATen/Tensor.h and the lazy tensor classes are not among the sources).
    An ordinary value carries its device and its data; a deferred value is a
    handle on a lazy tensor, which is bound to a backend device and either
    wraps a resolved payload or stands for a node of the recorded graph. *)
Inductive Tensor :=
| OrdinaryValue (dev : Device) (data : N)
| DeferredValue (lt : LazyTensor)
with LazyTensor :=
| LtcTensor (bound : BackendDevice) (payload : option Tensor).

(** [tensor.device()].  A deferred value reports the lazy device type, with
    the index of the device it is bound to. *)
Definition Tensor_device (tensor : Tensor) : Device :=
  match tensor with
  | OrdinaryValue dev _ => dev
  | DeferredValue (LtcTensor bound _) => mkDevice kLazy (index (aten_device bound))
  end.

(** Modelled from the spec: GetOrCreateLtcTensor and CreateAtenFromLtcTensor
    (torch/csrc/lazy/core/tensor.h is not among the sources).  Wrapping an
    ordinary value constructs a new lazy tensor bound to the device whose
    resolved payload is the value; a value that is already deferred keeps
    its lazy tensor. *)
Definition GetOrCreateLtcTensor (tensor : Tensor) (device : BackendDevice) : LazyTensor :=
  match tensor with
  | DeferredValue lt => lt
  | OrdinaryValue _ _ => LtcTensor device (Some tensor)
  end.

Definition CreateAtenFromLtcTensor (lt : LazyTensor) : Tensor :=
  DeferredValue lt.

(** torch::jit::Stack is a vector of boxed values; c10::OperatorHandle is
    opaque to this translation unit. *)
Inductive IValue :=
| TensorValue (t : Tensor)
| ScalarValue (z : Z).

Abbreviation Stack := (list IValue).

Record OperatorHandle := mkOperatorHandle {
  operator_name : string
}.

(** ** Errors, observable events and the state of a thread *)

(** What a call can throw: a failed TORCH_CHECK, a failed
    TORCH_INTERNAL_ASSERT, or whatever a collaborator throws. *)
Inductive Error :=
| TorchCheckError (msg : string)
| InternalAssertError (cond : string)
| CollaboratorError (what : string).

(** The specification's name for the failed check of [_lazy_mode_dec]. *)
Definition ScopeUnderflow : Error :=
  TorchCheckError "Attempting to exit from a lazy mode without entering".

(** The actions of this translation unit that are visible from outside:
    the warnings it logs, its writes to the thread-local included set, and
    its calls to collaborators. *)
Inductive LogItem :=
| LogText (s : string)
| LogDevice (d : Device).

Inductive Event :=
| EvLogWarning (line : list LogItem)
| EvTlsSetIncluded (k : DispatchKey) (desired_state : bool)
| EvSyncLiveTensorsGraph (device : BackendDevice) (devices : list string) (wait : bool)
| EvRedispatchBoxed (op : OperatorHandle) (ks : DispatchKeySet) (stack : Stack)
| EvEagerFallback (op : OperatorHandle) (stack : Stack) (device_type : DeviceType).

(** The state one thread sees: its nesting counter ([thread_local size_t
    _nest_counter]), its thread-local dispatch key sets, the trace of the
    events above (oldest first), and the state [ext] of everything outside
    this translation unit. *)
Record World (Ext : Type) := mkWorld {
  nest_counter : Z;
  tls : LocalDispatchKeySet;
  trace : list Event;
  ext : Ext
}.
Arguments mkWorld {Ext}.
Arguments nest_counter {Ext}.
Arguments tls {Ext}.
Arguments trace {Ext}.
Arguments ext {Ext}.

(** size_t is an unsigned integer of 64 bits (the LP64 platforms the
    library is built for); arithmetic on it wraps. *)
Definition size_t_modulus : Z := 2 ^ 64.
Definition SIZE_MAX : Z := size_t_modulus - 1.

(** ** The monad: state of the thread, and C++ exceptions *)

Inductive Result (A : Type) :=
| Ok (a : A)
| Throw (e : Error).
Arguments Ok {A}.
Arguments Throw {A}.

Definition M (Ext A : Type) : Type := World Ext → Result A * World Ext.

Definition ret {Ext A} (a : A) : M Ext A := λ w, (Ok a, w).

Definition throw {Ext A} (e : Error) : M Ext A := λ w, (Throw e, w).

(** Sequencing: an exception skips the rest; the state stays as the
    throwing call left it. *)
Definition bind {Ext A B} (m : M Ext A) (k : A → M Ext B) : M Ext B :=
  λ w, match m w with
       | (Ok a, w') => k a w'
       | (Throw e, w') => (Throw e, w')
       end.

Declare Scope lazy_scope.
Delimit Scope lazy_scope with lazy.
Notation "'let*' x ':=' m 'in' k" := (bind m (λ x, k))
  (at level 10, x name, m at level 100, k at level 200) : lazy_scope.
Notation "m '>>' k" := (bind m (λ _, k))
  (at level 100, k at level 200, right associativity) : lazy_scope.
Local Open Scope lazy_scope.

Definition gets {Ext A} (f : World Ext → A) : M Ext A := λ w, (Ok (f w), w).

Definition modify {Ext} (f : World Ext → World Ext) : M Ext unit := λ w, (Ok tt, f w).

Definition set_nest_counter {Ext} (n : Z) (w : World Ext) : World Ext :=
  mkWorld n (tls w) (trace w) (ext w).

Definition set_tls {Ext} (t : LocalDispatchKeySet) (w : World Ext) : World Ext :=
  mkWorld (nest_counter w) t (trace w) (ext w).

Definition record {Ext} (ev : Event) (w : World Ext) : World Ext :=
  mkWorld (nest_counter w) (tls w) (trace w ++ [ev]) (ext w).

(** An action that leaves one event in the trace. *)
Definition emit {Ext} (ev : Event) : M Ext unit := modify (record ev).

(** A call to a collaborator: the call is noted in the trace, then made. *)
Definition calling {Ext A} (ev : Event) (callee : M Ext A) : M Ext A :=
  emit ev >> callee.

(** TORCH_CHECK(cond, msg) and TORCH_INTERNAL_ASSERT(cond). *)
Definition TORCH_CHECK {Ext} (cond : bool) (msg : string) : M Ext unit :=
  if cond then ret tt else throw (TorchCheckError msg).

Definition TORCH_INTERNAL_ASSERT {Ext} (cond : bool) (text : string) : M Ext unit :=
  if cond then ret tt else throw (InternalAssertError text).

(** LOG(WARNING) << item << item ... *)
Definition LOG_WARNING {Ext} (line : list LogItem) : M Ext unit :=
  emit (EvLogWarning line).

(** ** The thread-local dispatch key API of c10 *)

(** Modelled from the spec: c10::impl::tls_set_dispatch_key_included
    (c10/core/impl/LocalDispatchKeySet.h is not among the sources).  It sets
    or clears one routing flag of the current thread: the key joins or
    leaves the included set. *)
Definition tls_set_dispatch_key_included {Ext} (x : DispatchKey) (desired_state : bool)
  : M Ext unit :=
  emit (EvTlsSetIncluded x desired_state) >>
  modify (λ w, set_tls (mkLocalDispatchKeySet
                          (if desired_state
                           then included_ (tls w) ∪ {[x]}
                           else included_ (tls w) ∖ {[x]})
                          (excluded_ (tls w))) w).

(** [tls_is_dispatch_key_included]: the routing flag, read. *)
Definition tls_is_dispatch_key_included {Ext} (x : DispatchKey) (w : World Ext) : bool :=
  bool_decide (x ∈ included_ (tls w)).

Definition tls_is_dispatch_key_excluded {Ext} (x : DispatchKey) (w : World Ext) : bool :=
  bool_decide (x ∈ excluded_ (tls w)).

(** Modelled from the spec: c10::impl::ExcludeDispatchKeyGuard (same
    header).  A scoped exclusion: the constructor excludes the key and
    remembers what it added, the destructor takes that away again, so that
    the excluded set is restored. *)
Record ExcludeDispatchKeyGuard := mkExcludeDispatchKeyGuard {
  exclude_ : DispatchKeySet
}.

Definition ExcludeDispatchKeyGuard_ctor {Ext} (k : DispatchKey)
  : M Ext ExcludeDispatchKeyGuard :=
  let* added := gets (λ w, ({[k]} : DispatchKeySet) ∖ excluded_ (tls w)) in
  modify (λ w, set_tls (mkLocalDispatchKeySet
                          (included_ (tls w))
                          (excluded_ (tls w) ∪ added)) w) >>
  ret (mkExcludeDispatchKeyGuard added).

Definition ExcludeDispatchKeyGuard_dtor {Ext} (g : ExcludeDispatchKeyGuard)
  (w : World Ext) : World Ext :=
  set_tls (mkLocalDispatchKeySet
             (included_ (tls w))
             (excluded_ (tls w) ∖ exclude_ g)) w.

(** A C++ scope that owns a guard: the constructor runs, then the body,
    then the destructor, whether the body returns or throws. *)
Definition scoped {Ext G A} (ctor : M Ext G) (dtor : G → World Ext → World Ext)
  (body : M Ext A) : M Ext A :=
  let* g := ctor in
  λ w, let '(r, w') := body w in (r, dtor g w').

(** A call of the mode controller, as a thread makes them in sequence. *)
Inductive Call :=
| Enter (device : Device)
| Exit (device : Device).

(** ** A reference environment

    Concrete collaborators on which the model runs: an executor that counts
    the synchronisations it served in [ext] and refuses a device that names
    an index, a redispatch that leaves the stack alone, and an eager
    fallback that replaces every wrapped operand by its payload and fails on
    an empty stack. *)

Definition ref_toString (d : BackendDevice) : string :=
  if has_index (aten_device d) then "lazy:n" else "lazy".

Definition ref_SyncLiveTensorsGraph (device : BackendDevice) (devices : list string)
  (wait : bool) : M nat unit :=
  λ w, if has_index (aten_device device)
       then (Throw (CollaboratorError "unknown device"), w)
       else (Ok tt, mkWorld (nest_counter w) (tls w) (trace w) (S (ext w))).

Definition ref_redispatchBoxed (op : OperatorHandle) (ks : DispatchKeySet)
  (stack : Stack) : M nat Stack :=
  ret stack.

Definition materialize (v : IValue) : IValue :=
  match v with
  | TensorValue (DeferredValue (LtcTensor _ (Some t))) => TensorValue t
  | _ => v
  end.

Definition ref_ts_eager_fallback (op : OperatorHandle) (stack : Stack)
  (device_type : DeviceType) : M nat Stack :=
  match stack with
  | [] => throw (CollaboratorError "empty stack")
  | _ => ret (map materialize stack)
  end.

(** Devices, tensors, states and call sequences to run the model on. *)
Definition lazy_device : Device := mkDevice kLazy None.
Definition lazy_device_0 : Device := mkDevice kLazy (Some 0).
Definition cpu_device : Device := mkDevice kCPU None.

Definition cpu_tensor : Tensor := OrdinaryValue cpu_device 7.
Definition wrapped_tensor : Tensor :=
  DeferredValue (LtcTensor (mkBackendDevice lazy_device) (Some cpu_tensor)).
Definition indexed_lazy_tensor : Tensor :=
  DeferredValue (LtcTensor (mkBackendDevice lazy_device_0) None).

Definition add_op : OperatorHandle := mkOperatorHandle "aten::add".

Definition fresh_thread : World nat :=
  mkWorld 0 (mkLocalDispatchKeySet ∅ ∅) [] 0%nat.

Definition thread_in_mode : World nat :=
  mkWorld 1 (mkLocalDispatchKeySet {[Lazy]} ∅) [EvTlsSetIncluded Lazy true] 0%nat.

Definition thread_nested_twice : World nat :=
  mkWorld 2 (mkLocalDispatchKeySet {[Lazy]} ∅) [EvTlsSetIncluded Lazy true] 0%nat.

(** Two nested scopes, one Exit too many, and a new scope. *)
Definition nested_then_underflow : list Call :=
  [Enter lazy_device; Enter cpu_device; Exit cpu_device; Exit lazy_device;
   Exit lazy_device; Enter lazy_device].

(** Scenario A of the specification: a scope nested in a scope. *)
Definition scenario_A : list Call :=
  [Enter lazy_device; Enter lazy_device; Exit lazy_device; Exit lazy_device].

(** ** The translation unit *)

Section LazyMode.

Context {Ext : Type}.

(** Collaborators.  [BackendDevice::toString], the graph executor's
    [SyncLiveTensorsGraph], [OperatorHandle::redispatchBoxed] (which leaves
    its results on the stack), [ts_eager_fallback] (likewise) and the
    backend's [EagerFallbackDeviceType]. *)
Variable BackendDevice_toString : BackendDevice → string.
Variable SyncLiveTensorsGraph : BackendDevice → list string → bool → M Ext unit.
Variable redispatchBoxed : OperatorHandle → DispatchKeySet → Stack → M Ext Stack.
Variable ts_eager_fallback : OperatorHandle → Stack → DeviceType → M Ext Stack.
Variable EagerFallbackDeviceType : DeviceType.

(** [size_t& _lazy_mode_nests()]: the thread-local counter, read. *)
Definition _lazy_mode_nests : M Ext Z := gets nest_counter.

(** [return _lazy_mode_nests()++;] *)
Definition _lazy_mode_inc : M Ext Z :=
  let* n := _lazy_mode_nests in
  modify (set_nest_counter ((n + 1) mod size_t_modulus)) >>
  ret n.

(** [TORCH_CHECK(_lazy_mode_nests() > 0, ...); return --_lazy_mode_nests();] *)
Definition _lazy_mode_dec : M Ext Z :=
  let* n := _lazy_mode_nests in
  TORCH_CHECK (0 <? n) "Attempting to exit from a lazy mode without entering" >>
  modify (set_nest_counter ((n - 1) mod size_t_modulus)) >>
  _lazy_mode_nests.

Definition in_lazy_mode : M Ext bool :=
  let* n := _lazy_mode_nests in
  ret (0 <? n).

Definition LazyModeEnter (device : Device) : M Ext unit :=
  let* n := _lazy_mode_inc in
  if n =? 0 then
    tls_set_dispatch_key_included Lazy true
  else
    ret tt.

Definition LazyModeExit (device : Device) : M Ext unit :=
  let* n := _lazy_mode_dec in
  if n =? 0 then
    tls_set_dispatch_key_included Lazy false >>
    let backend_device := atenDeviceToBackendDevice device in
    let backend_devices := [BackendDevice_toString backend_device] in
    calling (EvSyncLiveTensorsGraph backend_device backend_devices true)
      (SyncLiveTensorsGraph backend_device backend_devices true)
  else
    ret tt.

Definition GetUnlazyDispatchKey : DispatchKey := TESTING_ONLY_GenericWrapper.

(** [tensor.device().type() == c10::kLazy] *)
Definition on_lazy_device (tensor : Tensor) : bool :=
  bool_decide (type (Tensor_device tensor) = kLazy).

Definition PrepareTensorForMetaKernel (tensor : Tensor) (lazy_device : Device)
  : M Ext Tensor :=
  let* inside := in_lazy_mode in
  if negb inside then
    TORCH_INTERNAL_ASSERT (on_lazy_device tensor)
      "tensor.device().type() == c10::kLazy" >>
    ret tensor
  else if on_lazy_device tensor then
    LOG_WARNING [LogText "PrepareTensorForMetaKernel skip move for already-lazy tensor on ";
                 LogDevice (Tensor_device tensor)] >>
    TORCH_INTERNAL_ASSERT (negb (has_index (Tensor_device tensor)))
      "!tensor.device().has_index()" >>
    ret tensor
  else
    TORCH_INTERNAL_ASSERT (negb (on_lazy_device tensor))
      "tensor.device().type() != c10::kLazy" >>
    LOG_WARNING [LogText "PrepareTensorForMetaKernel move tensor from ";
                 LogDevice (Tensor_device tensor);
                 LogText " to ";
                 LogDevice lazy_device] >>
    ret (CreateAtenFromLtcTensor
           (GetOrCreateLtcTensor tensor (atenDeviceToBackendDevice lazy_device))).

Definition unlazy_handler (op : OperatorHandle) (stack : Stack) : M Ext Stack :=
  let* inside := in_lazy_mode in
  if inside then
    LOG_WARNING [LogText "unlazy_handler is a no-op inside lazy mode"] >>
    calling (EvRedispatchBoxed op {[Lazy]} stack)
      (redispatchBoxed op {[Lazy]} stack)
  else
    LOG_WARNING [LogText "unlazy_handler is kicking in outside lazy mode"] >>
    scoped (ExcludeDispatchKeyGuard_ctor GetUnlazyDispatchKey)
           ExcludeDispatchKeyGuard_dtor
           (calling (EvEagerFallback op stack EagerFallbackDeviceType)
              (ts_eager_fallback op stack EagerFallbackDeviceType)).

(** [TORCH_LIBRARY_IMPL(_, TESTING_ONLY_GenericWrapper, m)]: the key whose
    fallback [unlazy_handler] is registered as. *)
Definition unlazy_handler_key : DispatchKey := TESTING_ONLY_GenericWrapper.

(** ** Sequences of calls on one thread *)

Definition perform (c : Call) : M Ext unit :=
  match c with
  | Enter device => LazyModeEnter device
  | Exit device => LazyModeExit device
  end.

(** The state after one call, whether it returned or threw. *)
Definition after (c : Call) (w : World Ext) : World Ext := (perform c w).2.

(** The calls of [cs] made in order by the thread; an exception goes to
    the caller, and the thread's state stays as the call left it. *)
Fixpoint run (cs : list Call) (w : World Ext) : World Ext :=
  match cs with
  | [] => w
  | c :: rest => run rest (after c w)
  end.

(** ** Reading a run *)

(** The range of a size_t. *)
Definition size_t_range (w : World Ext) : Prop :=
  0 ≤ nest_counter w < size_t_modulus.

(** A thread as it starts: counter 0, Lazy key not included. *)
Definition thread_start (w : World Ext) : Prop :=
  nest_counter w = 0 ∧ Lazy ∉ included_ (tls w).

(** The route-to-deferred flag: the Lazy key in the included set. *)
Definition route_to_deferred (w : World Ext) : bool :=
  tls_is_dispatch_key_included Lazy w.

(** The flag as an observer sees it after each call of [cs]. *)
Fixpoint flags_along (cs : list Call) (w : World Ext) : list bool :=
  match cs with
  | [] => []
  | c :: rest => route_to_deferred (after c w) :: flags_along rest (after c w)
  end.

(** The events a thread left between state [w] and the later state [w']. *)
Definition events_since (w w' : World Ext) : list Event :=
  drop (length (trace w)) (trace w').

(** The arguments of the synchronisation calls among some events. *)
Definition sync_calls (evs : list Event) : list (BackendDevice * list string * bool) :=
  flat_map (λ ev, match ev with
                  | EvSyncLiveTensorsGraph device devices wait => [(device, devices, wait)]
                  | _ => []
                  end) evs.

(** How often the Lazy flag was written with value [b]. *)
Definition flag_writes (b : bool) (evs : list Event) : nat :=
  length (List.filter (λ ev, match ev with
                             | EvTlsSetIncluded Lazy b' => Bool.eqb b b'
                             | _ => false
                             end) evs).

(** The devices of the Exit calls of [cs] that find the counter at 1. *)
Fixpoint outermost_exits (cs : list Call) (w : World Ext) : list Device :=
  match cs with
  | [] => []
  | c :: rest =>
      match c with
      | Exit device => if nest_counter w =? 1 then [device] else []
      | Enter _ => []
      end ++ outermost_exits rest (after c w)
  end.

(** How many calls of [cs] take the counter from [from] to [to]. *)
Fixpoint transitions (from to : Z) (cs : list Call) (w : World Ext) : nat :=
  match cs with
  | [] => 0%nat
  | c :: rest =>
      let hit := (nest_counter w =? from) && (nest_counter (after c w) =? to) in
      ((if hit then 1 else 0) + transitions from to rest (after c w))%nat
  end.

(** No Enter of [cs] finds the counter at SIZE_MAX. *)
Fixpoint counter_fits (cs : list Call) (w : World Ext) : bool :=
  match cs with
  | [] => true
  | c :: rest =>
      match c with
      | Enter _ => nest_counter w <? SIZE_MAX
      | Exit _ => true
      end && counter_fits rest (after c w)
  end.

(** Balanced sequences: [balance cs n] is the number of scopes left open by
    [cs] when [n] were open before it, or [None] when some Exit has no
    Enter to close. *)
Fixpoint balance (cs : list Call) (n : nat) : option nat :=
  match cs with
  | [] => Some n
  | Enter _ :: rest => balance rest (S n)
  | Exit _ :: rest =>
      match n with
      | O => None
      | S m => balance rest m
      end
  end.

Definition balanced (cs : list Call) : bool :=
  match balance cs 0 with
  | Some O => true
  | _ => false
  end.

(** What Enter leaves when it opens the outermost scope. *)
Definition entered_outermost (w : World Ext) : World Ext :=
  mkWorld 1
          (mkLocalDispatchKeySet (included_ (tls w) ∪ {[Lazy]}) (excluded_ (tls w)))
          (trace w ++ [EvTlsSetIncluded Lazy true])
          (ext w).

(** The state in which Exit calls the executor when it closes the outermost
    scope. *)
Definition exiting_outermost (device : Device) (w : World Ext) : World Ext :=
  mkWorld 0
          (mkLocalDispatchKeySet (included_ (tls w) ∖ {[Lazy]}) (excluded_ (tls w)))
          (trace w ++ [EvTlsSetIncluded Lazy false;
                       EvSyncLiveTensorsGraph
                         (atenDeviceToBackendDevice device)
                         [BackendDevice_toString (atenDeviceToBackendDevice device)]
                         true])
          (ext w).

(** The events one call leaves in a state whose counter is in range. *)
Definition step_events (c : Call) (w : World Ext) : list Event :=
  match c with
  | Enter _ =>
      if nest_counter w =? 0 then [EvTlsSetIncluded Lazy true] else []
  | Exit device =>
      if nest_counter w =? 1
      then [EvTlsSetIncluded Lazy false;
            EvSyncLiveTensorsGraph
              (atenDeviceToBackendDevice device)
              [BackendDevice_toString (atenDeviceToBackendDevice device)]
              true]
      else []
  end.

Fixpoint run_events (cs : list Call) (w : World Ext) : list Event :=
  match cs with
  | [] => []
  | c :: rest => step_events c w ++ run_events rest (after c w)
  end.

(** The key sets of a thread that started with [base] and whose counter is
    [n]: Lazy is included exactly when [n] is positive. *)
Definition flags_at (base : LocalDispatchKeySet) (n : Z) : LocalDispatchKeySet :=
  mkLocalDispatchKeySet
    (if 0 <? n then included_ base ∪ {[Lazy]} else included_ base ∖ {[Lazy]})
    (excluded_ base).

(** The invariant of the mode controller. *)
Definition mode_inv (base : LocalDispatchKeySet) (w : World Ext) : Prop :=
  size_t_range w ∧ tls w = flags_at base (nest_counter w).

(** The state in which [unlazy_handler], called in [w] outside the mode,
    calls the eager fallback: the warning and the call are in the trace and
    the key of the handler is excluded. *)
Definition fallback_world (op : OperatorHandle) (stack : Stack) (w : World Ext)
  : World Ext :=
  mkWorld (nest_counter w)
          (mkLocalDispatchKeySet
             (included_ (tls w))
             (excluded_ (tls w) ∪ ({[GetUnlazyDispatchKey]} ∖ excluded_ (tls w))))
          (trace w ++ [EvLogWarning [LogText "unlazy_handler is kicking in outside lazy mode"];
                       EvEagerFallback op stack EagerFallbackDeviceType])
          (ext w).

(** The state [unlazy_handler] leaves when the eager fallback, called when
    the thread was in [w], has left [w']: what the guard added to the
    excluded set is taken away again. *)
Definition guard_released (w w' : World Ext) : World Ext :=
  mkWorld (nest_counter w')
          (mkLocalDispatchKeySet
             (included_ (tls w'))
             (excluded_ (tls w') ∖ ({[GetUnlazyDispatchKey]} ∖ excluded_ (tls w))))
          (trace w')
          (ext w').

(** The warnings of [PrepareTensorForMetaKernel]. *)
Definition skip_move_warning (tensor : Tensor) : Event :=
  EvLogWarning [LogText "PrepareTensorForMetaKernel skip move for already-lazy tensor on ";
                LogDevice (Tensor_device tensor)].

Definition move_warning (tensor : Tensor) (lazy_device : Device) : Event :=
  EvLogWarning [LogText "PrepareTensorForMetaKernel move tensor from ";
                LogDevice (Tensor_device tensor);
                LogText " to ";
                LogDevice lazy_device].

(** ** One call at a time *)

Ltac unfold_M :=
  unfold LazyModeEnter, LazyModeExit, _lazy_mode_inc, _lazy_mode_dec, in_lazy_mode,
    _lazy_mode_nests, tls_set_dispatch_key_included, LOG_WARNING, calling, emit,
    TORCH_CHECK, TORCH_INTERNAL_ASSERT, bind, gets, modify, ret, throw; cbn.

Lemma in_lazy_mode_eq w : in_lazy_mode w = (Ok (0 <? nest_counter w), w).
Proof. reflexivity. Qed.

Lemma in_lazy_mode_true w : in_lazy_mode w = (Ok true, w) → 0 < nest_counter w.
Proof. rewrite in_lazy_mode_eq. intros [= H]. lia. Qed.

Lemma in_lazy_mode_false w : in_lazy_mode w = (Ok false, w) → nest_counter w ≤ 0.
Proof. rewrite in_lazy_mode_eq. intros [= H]. lia. Qed.

Lemma LazyModeEnter_outermost device w :
  nest_counter w = 0 →
  LazyModeEnter device w = (Ok tt, entered_outermost w).
Proof.
  intros H. unfold_M. rewrite H. reflexivity.
Qed.

Lemma LazyModeEnter_nested device w :
  nest_counter w ≠ 0 →
  LazyModeEnter device w
  = (Ok tt, set_nest_counter ((nest_counter w + 1) mod size_t_modulus) w).
Proof.
  intros H. unfold_M.
  destruct (nest_counter w =? 0) eqn:E; [lia | reflexivity].
Qed.

Lemma LazyModeExit_underflow device w :
  nest_counter w ≤ 0 →
  LazyModeExit device w = (Throw ScopeUnderflow, w).
Proof.
  intros H. unfold_M.
  destruct (0 <? nest_counter w) eqn:E; [lia | reflexivity].
Qed.

Lemma LazyModeExit_outermost device w :
  nest_counter w = 1 →
  LazyModeExit device w
  = SyncLiveTensorsGraph (atenDeviceToBackendDevice device)
      [BackendDevice_toString (atenDeviceToBackendDevice device)] true
      (exiting_outermost device w).
Proof.
  intros H. unfold_M. rewrite H.
  change ((1 - 1) `mod` size_t_modulus) with 0. cbn.
  unfold exiting_outermost, record, set_tls, set_nest_counter. cbn.
  rewrite <- app_assoc. reflexivity.
Qed.

Lemma LazyModeExit_nested device w :
  1 < nest_counter w < size_t_modulus →
  LazyModeExit device w = (Ok tt, set_nest_counter (nest_counter w - 1) w).
Proof.
  intros H. unfold_M.
  destruct (0 <? nest_counter w) eqn:E; [| lia]. cbn.
  rewrite Z.mod_small by (unfold size_t_modulus in *; lia).
  destruct (nest_counter w - 1 =? 0) eqn:E'; [lia | reflexivity].
Qed.

(** ** Sequences of calls *)

Section Sequences.

(** The graph executor does not enter or leave the mode, leaves the
    thread-local key sets as it found them, and adds nothing to the trace
    of this translation unit. *)
Hypothesis SyncLiveTensorsGraph_frame : ∀ device devices wait w,
  nest_counter (SyncLiveTensorsGraph device devices wait w).2 = nest_counter w
  ∧ tls (SyncLiveTensorsGraph device devices wait w).2 = tls w
  ∧ trace (SyncLiveTensorsGraph device devices wait w).2 = trace w.

Lemma size_t_modulus_eq : size_t_modulus = 18446744073709551616.
Proof. reflexivity. Qed.

Lemma after_Enter_counter device w :
  nest_counter (after (Enter device) w) = (nest_counter w + 1) `mod` size_t_modulus.
Proof.
  unfold after, perform.
  destruct (decide (nest_counter w = 0)) as [H|H].
  - rewrite LazyModeEnter_outermost by done. rewrite H. reflexivity.
  - rewrite LazyModeEnter_nested by done. reflexivity.
Qed.

Lemma after_Enter_tls device w :
  tls (after (Enter device) w)
  = if nest_counter w =? 0
    then mkLocalDispatchKeySet (included_ (tls w) ∪ {[Lazy]}) (excluded_ (tls w))
    else tls w.
Proof.
  unfold after, perform.
  destruct (nest_counter w =? 0) eqn:E.
  - rewrite LazyModeEnter_outermost by lia. reflexivity.
  - rewrite LazyModeEnter_nested by lia. reflexivity.
Qed.

Lemma after_Exit_counter device w :
  size_t_range w →
  nest_counter (after (Exit device) w)
  = if 0 <? nest_counter w then nest_counter w - 1 else nest_counter w.
Proof.
  intros [Hlo Hhi]. unfold after, perform.
  destruct (0 <? nest_counter w) eqn:E.
  - destruct (decide (nest_counter w = 1)) as [H|H].
    + rewrite LazyModeExit_outermost by done.
      destruct (SyncLiveTensorsGraph_frame
                  (atenDeviceToBackendDevice device)
                  [BackendDevice_toString (atenDeviceToBackendDevice device)] true
                  (exiting_outermost device w)) as (-> & _ & _).
      rewrite H. reflexivity.
    + rewrite LazyModeExit_nested by lia. reflexivity.
  - rewrite LazyModeExit_underflow by lia. reflexivity.
Qed.

Lemma after_Exit_tls device w :
  size_t_range w →
  tls (after (Exit device) w)
  = if nest_counter w =? 1
    then mkLocalDispatchKeySet (included_ (tls w) ∖ {[Lazy]}) (excluded_ (tls w))
    else tls w.
Proof.
  intros [Hlo Hhi]. unfold after, perform.
  destruct (nest_counter w =? 1) eqn:E.
  - rewrite LazyModeExit_outermost by lia.
    destruct (SyncLiveTensorsGraph_frame
                (atenDeviceToBackendDevice device)
                [BackendDevice_toString (atenDeviceToBackendDevice device)] true
                (exiting_outermost device w)) as (_ & -> & _).
    reflexivity.
  - destruct (decide (nest_counter w = 0)) as [H|H].
    + rewrite LazyModeExit_underflow by lia. reflexivity.
    + rewrite LazyModeExit_nested by lia. reflexivity.
Qed.

Lemma after_trace c w :
  size_t_range w →
  trace (after c w) = trace w ++ step_events c w.
Proof.
  intros [Hlo Hhi]. destruct c as [device|device]; unfold after, perform, step_events.
  - destruct (nest_counter w =? 0) eqn:E.
    + rewrite LazyModeEnter_outermost by lia. reflexivity.
    + rewrite LazyModeEnter_nested by lia. cbn. by rewrite app_nil_r.
  - destruct (nest_counter w =? 1) eqn:E.
    + rewrite LazyModeExit_outermost by lia.
      destruct (SyncLiveTensorsGraph_frame
                  (atenDeviceToBackendDevice device)
                  [BackendDevice_toString (atenDeviceToBackendDevice device)] true
                  (exiting_outermost device w)) as (_ & _ & ->).
      reflexivity.
    + destruct (decide (nest_counter w = 0)) as [H|H].
      * rewrite LazyModeExit_underflow by lia. by rewrite app_nil_r.
      * rewrite LazyModeExit_nested by lia. cbn. by rewrite app_nil_r.
Qed.

Lemma after_range c w : size_t_range w → size_t_range (after c w).
Proof.
  intros H. pose proof H as [Hlo Hhi]. unfold size_t_range.
  destruct c as [device|device].
  - rewrite after_Enter_counter. apply Z.mod_pos_bound. by rewrite size_t_modulus_eq.
  - rewrite after_Exit_counter by done.
    destruct (0 <? nest_counter w) eqn:E; lia.
Qed.

Lemma run_range cs w : size_t_range w → size_t_range (run cs w).
Proof.
  revert w. induction cs as [|c cs IH]; intros w H; cbn; [done|].
  apply IH, after_range, H.
Qed.

Lemma run_app cs1 cs2 w : run (cs1 ++ cs2) w = run cs2 (run cs1 w).
Proof.
  revert w. induction cs1 as [|c cs1 IH]; intros w; cbn; [done | apply IH].
Qed.

Lemma run_trace cs w :
  size_t_range w →
  trace (run cs w) = trace w ++ run_events cs w.
Proof.
  revert w. induction cs as [|c cs IH]; intros w H; cbn.
  - by rewrite app_nil_r.
  - rewrite IH by (by apply after_range).
    rewrite after_trace by done. by rewrite app_assoc.
Qed.

Lemma events_since_run cs w :
  size_t_range w →
  events_since w (run cs w) = run_events cs w.
Proof.
  intros H. unfold events_since. rewrite run_trace by done.
  by rewrite drop_app_length.
Qed.

(** *** The invariant: established, preserved, used *)

Lemma mode_inv_start w : thread_start w → mode_inv (tls w) w.
Proof.
  intros [H0 Hflag]. split.
  - unfold size_t_range. rewrite H0, size_t_modulus_eq. lia.
  - rewrite H0. unfold flags_at. cbn.
    destruct (tls w) as [inc exc]; cbn in *. f_equal. clear -Hflag. set_solver.
Qed.

Lemma mode_inv_after base c w :
  mode_inv base w →
  match c with Enter _ => nest_counter w <? SIZE_MAX | Exit _ => true end = true →
  mode_inv base (after c w).
Proof.
  intros [Hr Ht] Hfit. split; [by apply after_range|].
  pose proof Hr as [Hlo Hhi]. rewrite size_t_modulus_eq in Hhi.
  destruct c as [device|device].
  - rewrite after_Enter_counter, after_Enter_tls.
    unfold SIZE_MAX in Hfit. rewrite size_t_modulus_eq in *.
    rewrite Z.mod_small by lia.
    rewrite Ht. unfold flags_at.
    destruct (0 <? nest_counter w + 1) eqn:E2; [|lia].
    destruct (nest_counter w =? 0) eqn:E0.
    + destruct (0 <? nest_counter w) eqn:E1; [lia|].
      cbn. f_equal. apply difference_union_L.
    + destruct (0 <? nest_counter w) eqn:E1; [done|lia].
  - rewrite after_Exit_counter, after_Exit_tls by done.
    rewrite Ht. unfold flags_at.
    destruct (nest_counter w =? 1) eqn:E1.
    + destruct (0 <? nest_counter w) eqn:E0; [|lia].
      destruct (0 <? nest_counter w - 1) eqn:E2; [lia|].
      cbn. f_equal. clear. set_solver.
    + destruct (0 <? nest_counter w) eqn:E0; [|by rewrite E0].
      destruct (0 <? nest_counter w - 1) eqn:E2; [done|lia].
Qed.

Lemma mode_inv_run base cs w :
  mode_inv base w → counter_fits cs w = true → mode_inv base (run cs w).
Proof.
  revert w. induction cs as [|c cs IH]; intros w Hinv Hfit; cbn in *; [done|].
  apply andb_prop in Hfit as [Hc Hrest].
  apply IH; [by apply mode_inv_after | done].
Qed.

Lemma mode_inv_flag base w :
  mode_inv base w → route_to_deferred w = (0 <? nest_counter w).
Proof.
  intros [_ Ht]. unfold route_to_deferred, tls_is_dispatch_key_included.
  rewrite Ht. unfold flags_at.
  destruct (0 <? nest_counter w); cbn.
  - apply bool_decide_eq_true. clear. set_solver.
  - apply bool_decide_eq_false. clear. set_solver.
Qed.

Lemma counter_fits_app cs1 cs2 w :
  counter_fits (cs1 ++ cs2) w = counter_fits cs1 w && counter_fits cs2 (run cs1 w).
Proof.
  revert w. induction cs1 as [|c cs1 IH]; intros w; cbn; [done|].
  rewrite IH. by rewrite andb_assoc.
Qed.

(** A sequence that leaves [k'] scopes open where [k] were open, all of them
    counted by the counter, moves the counter by the difference. *)
Lemma balance_counter base cs : ∀ w k k',
  mode_inv base w →
  counter_fits cs w = true →
  balance cs k = Some k' →
  Z.of_nat k ≤ nest_counter w →
  nest_counter (run cs w) = nest_counter w - Z.of_nat k + Z.of_nat k'.
Proof.
  induction cs as [|c cs IH]; intros w k k' Hinv Hfit Hbal Hk; cbn in *.
  - injection Hbal as <-. lia.
  - apply andb_prop in Hfit as [Hc Hrest].
    pose proof (mode_inv_after base c w Hinv Hc) as Hinv'.
    destruct Hinv as [[Hlo Hhi] _]. rewrite size_t_modulus_eq in Hhi.
    destruct c as [device|device].
    + unfold SIZE_MAX in Hc. rewrite size_t_modulus_eq in Hc.
      assert (nest_counter (after (Enter device) w) = nest_counter w + 1) as Hn.
      { rewrite after_Enter_counter, size_t_modulus_eq. apply Z.mod_small. lia. }
      rewrite (IH _ (S k) k' Hinv' Hrest Hbal) by lia. lia.
    + destruct k as [|j]; [done|].
      assert (nest_counter (after (Exit device) w) = nest_counter w - 1) as Hn.
      { rewrite after_Exit_counter by (split; [lia | by rewrite size_t_modulus_eq]).
        destruct (0 <? nest_counter w) eqn:E; lia. }
      rewrite (IH _ j k' Hinv' Hrest Hbal) by lia. lia.
Qed.

(** *** What a run leaves in the trace *)

Lemma sync_calls_app evs1 evs2 :
  sync_calls (evs1 ++ evs2) = sync_calls evs1 ++ sync_calls evs2.
Proof. unfold sync_calls. apply flat_map_app. Qed.

Lemma flag_writes_app b evs1 evs2 :
  flag_writes b (evs1 ++ evs2) = (flag_writes b evs1 + flag_writes b evs2)%nat.
Proof. unfold flag_writes. by rewrite List.filter_app, length_app. Qed.

Lemma sync_calls_run_events cs : ∀ w,
  size_t_range w →
  sync_calls (run_events cs w)
  = map (λ device, (atenDeviceToBackendDevice device,
                    [BackendDevice_toString (atenDeviceToBackendDevice device)],
                    true))
        (outermost_exits cs w).
Proof.
  induction cs as [|c cs IH]; intros w Hr; cbn; [done|].
  rewrite sync_calls_app, map_app, IH by (by apply after_range).
  f_equal. destruct c as [device|device]; cbn.
  - by destruct (nest_counter w =? 0).
  - by destruct (nest_counter w =? 1).
Qed.

Lemma flag_writes_step b c w :
  size_t_range w →
  flag_writes b (step_events c w)
  = if (nest_counter w =? (if b then 0 else 1))
       && (nest_counter (after c w) =? (if b then 1 else 0))
    then 1%nat else 0%nat.
Proof.
  intros Hr. pose proof Hr as [Hlo Hhi]. rewrite size_t_modulus_eq in Hhi.
  destruct c as [device|device]; cbn.
  - rewrite after_Enter_counter, size_t_modulus_eq.
    destruct (nest_counter w =? 0) eqn:E0.
    + replace (nest_counter w) with 0 by lia. by destruct b.
    + destruct b; cbn.
      * by rewrite E0.
      * destruct (nest_counter w =? 1) eqn:E1; [|done].
        replace (nest_counter w) with 1 by lia. done.
  - rewrite after_Exit_counter by done.
    destruct (nest_counter w =? 1) eqn:E1.
    + replace (nest_counter w) with 1 by lia. by destruct b.
    + destruct b; cbn.
      * destruct (nest_counter w =? 0) eqn:E0; [|done].
        replace (nest_counter w) with 0 by lia. done.
      * by rewrite E1.
Qed.

Lemma flag_writes_run_events b cs : ∀ w,
  size_t_range w →
  flag_writes b (run_events cs w)
  = transitions (if b then 0 else 1) (if b then 1 else 0) cs w.
Proof.
  induction cs as [|c cs IH]; intros w Hr; cbn [run_events transitions]; [done|].
  rewrite flag_writes_app, IH by (by apply after_range).
  by rewrite flag_writes_step.
Qed.

(** *** Transitions inside a scope *)

Lemma transitions_app from to cs1 cs2 w :
  transitions from to (cs1 ++ cs2) w
  = (transitions from to cs1 w + transitions from to cs2 (run cs1 w))%nat.
Proof.
  revert w. induction cs1 as [|c cs1 IH]; intros w; cbn [app transitions run]; [done|].
  rewrite IH. cbn zeta. lia.
Qed.

(** Calls nested in a scope that stays open do not take the counter to or
    from 0. *)
Lemma nested_calls_no_transition base cs : ∀ w k k',
  mode_inv base w →
  counter_fits cs w = true →
  balance cs k = Some k' →
  Z.of_nat k < nest_counter w →
  transitions 0 1 cs w = 0%nat ∧ transitions 1 0 cs w = 0%nat.
Proof.
  induction cs as [|c cs IH]; intros w k k' Hinv Hfit Hbal Hk; [done|].
  cbn [counter_fits balance] in Hfit, Hbal.
  apply andb_prop in Hfit as [Hc Hrest].
  pose proof (mode_inv_after base c w Hinv Hc) as Hinv'.
  destruct Hinv as [[Hlo Hhi] _]. rewrite size_t_modulus_eq in Hhi.
  cbn [transitions]. cbn zeta.
  destruct (nest_counter w =? 0) eqn:E0; [lia|]. cbn [andb].
  destruct c as [device|device].
  - unfold SIZE_MAX in Hc. rewrite size_t_modulus_eq in Hc.
    assert (nest_counter (after (Enter device) w) = nest_counter w + 1) as Hn.
    { rewrite after_Enter_counter, size_t_modulus_eq. apply Z.mod_small. lia. }
    destruct (IH _ (S k) k' Hinv' Hrest Hbal) as [-> ->]; [lia|].
    rewrite Hn. destruct (nest_counter w + 1 =? 0) eqn:E1; [lia|].
    by rewrite andb_false_r.
  - destruct k as [|j]; [done|].
    assert (nest_counter (after (Exit device) w) = nest_counter w - 1) as Hn.
    { rewrite after_Exit_counter by (split; [lia | by rewrite size_t_modulus_eq]).
      destruct (0 <? nest_counter w) eqn:E; lia. }
    destruct (IH _ j k' Hinv' Hrest Hbal) as [-> ->]; [lia|].
    destruct (nest_counter w =? 1) eqn:E1; [lia|]. done.
Qed.

(** One scope opened at counter 0: one step from 0 to 1, one from 1 to 0. *)
Lemma single_scope_transitions base d d' inner w :
  mode_inv base w →
  counter_fits (Enter d :: inner ++ [Exit d']) w = true →
  balanced inner = true →
  nest_counter w = 0 →
  transitions 0 1 (Enter d :: inner ++ [Exit d']) w = 1%nat
  ∧ transitions 1 0 (Enter d :: inner ++ [Exit d']) w = 1%nat.
Proof.
  intros Hinv Hfit Hbal H0.
  cbn [counter_fits] in Hfit. apply andb_prop in Hfit as [Hc Hfit].
  rewrite counter_fits_app in Hfit. apply andb_prop in Hfit as [Hinner _].
  pose proof (mode_inv_after base (Enter d) w Hinv Hc) as Hinv1.
  assert (nest_counter (after (Enter d) w) = 1) as H1.
  { rewrite after_Enter_counter, H0. reflexivity. }
  unfold balanced in Hbal.
  destruct (balance inner 0) as [[|k]|] eqn:E; try discriminate.
  destruct (nested_calls_no_transition base inner _ 0%nat 0%nat Hinv1 Hinner E)
    as [Hup Hdown]; [rewrite H1; cbn; lia|].
  pose proof (balance_counter base inner _ 0%nat 0%nat Hinv1 Hinner E) as Hn.
  rewrite H1 in Hn. cbn in Hn. specialize (Hn ltac:(lia)).
  pose proof (mode_inv_run base inner _ Hinv1 Hinner) as [Hr2 _].
  cbn [transitions]. cbn zeta. rewrite H0, H1.
  rewrite !transitions_app, Hup, Hdown. cbn [transitions]. cbn zeta.
  rewrite after_Exit_counter by done. rewrite Hn. done.
Qed.

(** *** The properties of call sequences *)

(** C1.  On a thread that starts with counter 0 and the Lazy key not
    included, after every sequence of Enter and Exit calls the
    route-to-deferred flag (the Lazy key in the thread-local included set)
    is set if and only if the nesting counter is positive; and
    [in_lazy_mode] returns true exactly when the counter is positive, that
    is, it returns the flag, without changing the state.  The sequences are
    those a thread can make: no Enter finds the size_t counter at SIZE_MAX,
    which would take 2^64 scopes open at once. *)
Theorem route_to_deferred_iff_counter_positive (w0 : World Ext) (cs : list Call) :
  thread_start w0 →
  counter_fits cs w0 = true →
  (route_to_deferred (run cs w0) = true ↔ 0 < nest_counter (run cs w0))
  ∧ in_lazy_mode (run cs w0) = (Ok (0 <? nest_counter (run cs w0)), run cs w0)
  ∧ in_lazy_mode (run cs w0) = (Ok (route_to_deferred (run cs w0)), run cs w0).
Proof.
  intros Hstart Hfit.
  pose proof (mode_inv_run _ cs w0 (mode_inv_start w0 Hstart) Hfit) as Hinv.
  rewrite (mode_inv_flag _ _ Hinv).
  split; [apply Z.ltb_lt | split; reflexivity].
Qed.

(** C2.  In every sequence of Enter and Exit calls, the synchronisation
    calls made to the graph executor are, in order, one for each Exit that
    finds the counter at 1 (and so brings it to 0), with the backend device
    of that Exit, the one-element device list of its name, and wait = true;
    no other call of the sequence (an Enter, a nested Exit, an Exit that
    underflows) makes one.  Such an Exit ends in that one call of the
    executor: its result and final state are those of the executor, called
    when the counter is 0 and the flag is cleared. *)
Theorem sync_once_per_outermost_exit (w : World Ext) (cs : list Call) :
  size_t_range w →
  sync_calls (events_since w (run cs w))
  = map (λ device, (atenDeviceToBackendDevice device,
                    [BackendDevice_toString (atenDeviceToBackendDevice device)],
                    true))
        (outermost_exits cs w)
  ∧ ∀ device w1,
      nest_counter w1 = 1 →
      LazyModeExit device w1
      = SyncLiveTensorsGraph (atenDeviceToBackendDevice device)
          [BackendDevice_toString (atenDeviceToBackendDevice device)] true
          (exiting_outermost device w1).
Proof.
  intros Hr. split.
  - rewrite events_since_run by done. by apply sync_calls_run_events.
  - intros device w1 H1. by apply LazyModeExit_outermost.
Qed.

(** What one call does to the flag: it writes it once when it takes the
    counter from 0 to 1 (true) or from 1 to 0 (false), and not otherwise. *)
Lemma events_since_after c w :
  size_t_range w → events_since w (after c w) = step_events c w.
Proof.
  intros Hr. unfold events_since. rewrite after_trace by done.
  by rewrite drop_app_length.
Qed.

Lemma tls_after_other_step c w :
  size_t_range w →
  (nest_counter w =? 0) && (nest_counter (after c w) =? 1) = false →
  (nest_counter w =? 1) && (nest_counter (after c w) =? 0) = false →
  tls (after c w) = tls w.
Proof.
  intros Hr Hup Hdown. destruct c as [device|device].
  - rewrite after_Enter_tls. rewrite after_Enter_counter in Hup.
    destruct (nest_counter w =? 0) eqn:E0; [|reflexivity].
    replace (nest_counter w) with 0 in Hup by lia. discriminate Hup.
  - rewrite after_Exit_tls by done. rewrite after_Exit_counter in Hdown by done.
    destruct (nest_counter w =? 1) eqn:E1; [|reflexivity].
    replace (nest_counter w) with 1 in Hdown by lia. discriminate Hdown.
Qed.

(** C4.  On a thread that started with counter 0 and the Lazy key not
    included and made the calls [pre], every balanced sequence [cs] of
    Enter and Exit calls leaves the thread-local key sets and the counter
    as it found them.  During [cs], call by call: a call that takes the
    counter from 0 to 1 writes the flag exactly once, setting it, and the
    flag goes from clear to set; a call that takes the counter from 1 to 0
    writes it exactly once, clearing it, and the flag goes from set to
    clear; every other call writes no flag and leaves the key sets as they
    were.  So the flag is set as often as the counter goes from 0 to 1 and
    cleared as often as it goes from 1 to 0, and when [cs] is one scope
    opened at counter 0, whatever is nested in it, exactly once each.  The
    sequences are those a thread can make: no Enter finds the size_t
    counter at SIZE_MAX. *)
Theorem balanced_sequence_restores_flags (w0 : World Ext) (pre cs : list Call) :
  thread_start w0 →
  counter_fits (pre ++ cs) w0 = true →
  balanced cs = true →
  tls (run cs (run pre w0)) = tls (run pre w0)
  ∧ nest_counter (run cs (run pre w0)) = nest_counter (run pre w0)
  ∧ flag_writes true (events_since (run pre w0) (run cs (run pre w0)))
    = transitions 0 1 cs (run pre w0)
  ∧ flag_writes false (events_since (run pre w0) (run cs (run pre w0)))
    = transitions 1 0 cs (run pre w0)
  ∧ (∀ d d' inner,
      cs = Enter d :: inner ++ [Exit d'] →
      balanced inner = true →
      nest_counter (run pre w0) = 0 →
      flag_writes true (events_since (run pre w0) (run cs (run pre w0))) = 1%nat
      ∧ flag_writes false (events_since (run pre w0) (run cs (run pre w0))) = 1%nat)
  ∧ ∀ before c rest,
      cs = before ++ c :: rest →
      let w := run before (run pre w0) in
      let up := (nest_counter w =? 0) && (nest_counter (after c w) =? 1) in
      let down := (nest_counter w =? 1) && (nest_counter (after c w) =? 0) in
      flag_writes true (events_since w (after c w)) = (if up then 1 else 0)%nat
      ∧ flag_writes false (events_since w (after c w)) = (if down then 1 else 0)%nat
      ∧ (up = true →
         route_to_deferred w = false ∧ route_to_deferred (after c w) = true)
      ∧ (down = true →
         route_to_deferred w = true ∧ route_to_deferred (after c w) = false)
      ∧ (up = false → down = false → tls (after c w) = tls w).
Proof.
  intros Hstart Hfit Hbal.
  pose proof Hfit as Hall.
  rewrite counter_fits_app in Hfit. apply andb_prop in Hfit as [Hpre Hcs].
  pose proof (mode_inv_run _ pre w0 (mode_inv_start w0 Hstart) Hpre) as Hinv.
  pose proof (mode_inv_run _ cs _ Hinv Hcs) as Hinv'.
  assert (nest_counter (run cs (run pre w0)) = nest_counter (run pre w0)) as Hn.
  { unfold balanced in Hbal.
    destruct (balance cs 0) as [[|k]|] eqn:E; try discriminate.
    rewrite (balance_counter _ cs _ 0%nat 0%nat Hinv Hcs E).
    - lia.
    - destruct Hinv as [[Hlo _] _]. cbn. lia. }
  assert (size_t_range (run pre w0)) as Hr by apply Hinv.
  rewrite events_since_run by done.
  rewrite (flag_writes_run_events true), (flag_writes_run_events false) by done.
  split; [|split; [done|split; [done|split; [done|split]]]].
  - destruct Hinv as [_ ->]. destruct Hinv' as [_ ->]. by rewrite Hn.
  - intros d d' inner -> Hinner H0.
    by apply (single_scope_transitions (tls w0) d d' inner).
  - intros before c rest ->. cbn zeta.
    rewrite counter_fits_app in Hcs. apply andb_prop in Hcs as [Hbefore Hstep].
    cbn [counter_fits] in Hstep. apply andb_prop in Hstep as [Hc _].
    pose proof (mode_inv_run _ before _ Hinv Hbefore) as Hinv1.
    pose proof (mode_inv_after _ c _ Hinv1 Hc) as Hinv2.
    assert (size_t_range (run before (run pre w0))) as Hr1 by apply Hinv1.
    rewrite events_since_after by done.
    rewrite (flag_writes_step true), (flag_writes_step false) by done.
    rewrite (mode_inv_flag _ _ Hinv1), (mode_inv_flag _ _ Hinv2).
    split; [done|]. split; [done|]. split; [|split].
    + intros [H0 H1]%andb_prop.
      apply Z.eqb_eq in H0. apply Z.eqb_eq in H1. by rewrite H0, H1.
    + intros [H1 H0]%andb_prop.
      apply Z.eqb_eq in H0. apply Z.eqb_eq in H1. by rewrite H0, H1.
    + intros Hup Hdown. by apply tls_after_other_step.
Qed.


(** *** Accounting of open scopes *)

(** X5.  An Exit that finds the counter at 1 leaves the mode whatever the
    graph executor does: the caller of Exit gets the executor's result, be
    it an exception, and in either case the counter is 0, the Lazy key is
    not included and [in_lazy_mode] answers false afterwards. *)
Theorem outermost_exit_leaves_mode_even_if_sync_throws (device : Device) (w : World Ext) :
  nest_counter w = 1 →
  (LazyModeExit device w).1
  = (SyncLiveTensorsGraph (atenDeviceToBackendDevice device)
       [BackendDevice_toString (atenDeviceToBackendDevice device)] true
       (exiting_outermost device w)).1
  ∧ nest_counter (after (Exit device) w) = 0
  ∧ route_to_deferred (after (Exit device) w) = false
  ∧ in_lazy_mode (after (Exit device) w) = (Ok false, after (Exit device) w).
Proof.
  intros H1.
  assert (nest_counter (after (Exit device) w) = 0) as Hn.
  { rewrite after_Exit_counter, H1; [reflexivity|].
    unfold size_t_range. rewrite H1, size_t_modulus_eq. lia. }
  split; [by rewrite LazyModeExit_outermost|]. split; [exact Hn|]. split.
  - unfold route_to_deferred, tls_is_dispatch_key_included.
    rewrite after_Exit_tls, H1; [|unfold size_t_range; rewrite H1, size_t_modulus_eq; lia].
    cbn. apply bool_decide_eq_false. rewrite elem_of_difference.
    intros [_ Hnot]. apply Hnot. by apply elem_of_singleton.
  - by rewrite in_lazy_mode_eq, Hn.
Qed.

(** X6.  The counter counts the open scopes: after a sequence of calls on
    a fresh thread in which every Exit closes an Enter made before it and
    the counter does not wrap, the counter is the number of scopes still
    open, and the flag is set exactly when that number is not zero. *)
Theorem counter_counts_open_scopes (w0 : World Ext) (cs : list Call) (k : nat) :
  thread_start w0 →
  counter_fits cs w0 = true →
  balance cs 0 = Some k →
  nest_counter (run cs w0) = Z.of_nat k
  ∧ route_to_deferred (run cs w0) = negb (Nat.eqb k 0).
Proof.
  intros Hstart Hfit Hbal.
  pose proof (mode_inv_start w0 Hstart) as Hinv.
  assert (nest_counter (run cs w0) = Z.of_nat k) as Hn.
  { rewrite (balance_counter _ cs w0 0%nat k Hinv Hfit Hbal).
    - destruct Hstart as [-> _]. cbn. lia.
    - destruct Hstart as [-> _]. cbn. lia. }
  split; [exact Hn|].
  rewrite (mode_inv_flag _ _ (mode_inv_run _ cs w0 Hinv Hfit)), Hn.
  destruct k; cbn; [reflexivity|]. apply Z.ltb_lt. lia.
Qed.

End Sequences.

(** ** Single calls *)

(** C3.  When the counter is 0, Exit fails with ScopeUnderflow, raised by
    the check of [_lazy_mode_dec], and the whole state of the thread is as
    before: no routing flag is written and no synchronisation is attempted. *)
Theorem exit_at_depth_zero_underflows (device : Device) (w : World Ext) :
  nest_counter w = 0 →
  _lazy_mode_dec w = (Throw ScopeUnderflow, w)
  ∧ LazyModeExit device w = (Throw ScopeUnderflow, w).
Proof.
  intros H. split.
  - unfold_M. rewrite H. reflexivity.
  - apply LazyModeExit_underflow. lia.
Qed.

(** C10.  Enter does not read its device argument: two devices give the
    same result and the same state.  Neither does an Exit that does not find
    the counter at 1 (a nested Exit, or one that underflows). *)
Theorem enter_and_nested_exit_ignore_device (d1 d2 : Device) (w : World Ext) :
  LazyModeEnter d1 w = LazyModeEnter d2 w
  ∧ (size_t_range w → nest_counter w ≠ 1 → LazyModeExit d1 w = LazyModeExit d2 w).
Proof.
  split; [reflexivity|].
  intros [Hlo Hhi] H1.
  destruct (decide (nest_counter w = 0)) as [H0|H0].
  - by rewrite !LazyModeExit_underflow by lia.
  - by rewrite !LazyModeExit_nested by lia.
Qed.

(** C5.  Called inside the mode, the handler logs a warning and
    redispatches the same operator with the same stack to the Lazy key, and
    that is all: its result and final state are those of the redispatch,
    which starts in the state of the caller with the two events added to
    the trace; the eager fallback is not called and neither the counter nor
    the key sets are written. *)
Theorem unlazy_handler_inside_mode_redispatches
    (op : OperatorHandle) (stack : Stack) (w : World Ext) :
  in_lazy_mode w = (Ok true, w) →
  unlazy_handler op stack w
  = redispatchBoxed op {[Lazy]} stack
      (mkWorld (nest_counter w) (tls w)
               (trace w ++ [EvLogWarning [LogText "unlazy_handler is a no-op inside lazy mode"];
                            EvRedispatchBoxed op {[Lazy]} stack])
               (ext w)).
Proof.
  intros H%in_lazy_mode_true. unfold unlazy_handler. unfold_M.
  destruct (0 <? nest_counter w) eqn:E; [|lia].
  unfold record. cbn. by rewrite <- app_assoc.
Qed.

(** C6.  Called outside the mode, the handler forwards to the eager
    fallback in a state where the key it is registered for is excluded, and
    whatever the fallback does, return or throw, the handler passes that
    result on after the guard has taken away the exclusion it added: when
    the key was not excluded at the call of the handler, it is not excluded
    when the handler is left. *)
Theorem unlazy_handler_outside_mode_scoped_exclusion
    (op : OperatorHandle) (stack : Stack) (w : World Ext) :
  in_lazy_mode w = (Ok false, w) →
  GetUnlazyDispatchKey = unlazy_handler_key
  ∧ tls_is_dispatch_key_excluded GetUnlazyDispatchKey (fallback_world op stack w) = true
  ∧ unlazy_handler op stack w
    = ((ts_eager_fallback op stack EagerFallbackDeviceType (fallback_world op stack w)).1,
       guard_released w
         (ts_eager_fallback op stack EagerFallbackDeviceType (fallback_world op stack w)).2)
  ∧ (GetUnlazyDispatchKey ∉ excluded_ (tls w) →
     tls_is_dispatch_key_excluded GetUnlazyDispatchKey (unlazy_handler op stack w).2 = false).
Proof.
  intros H%in_lazy_mode_false.
  assert (unlazy_handler op stack w
          = ((ts_eager_fallback op stack EagerFallbackDeviceType
                (fallback_world op stack w)).1,
             guard_released w
               (ts_eager_fallback op stack EagerFallbackDeviceType
                  (fallback_world op stack w)).2)) as Heq.
  { unfold unlazy_handler, scoped, ExcludeDispatchKeyGuard_ctor. unfold_M.
    destruct (0 <? nest_counter w) eqn:E; [lia|].
    unfold record, set_tls. cbn. rewrite <- app_assoc. cbn.
    fold (fallback_world op stack w).
    by destruct (ts_eager_fallback op stack EagerFallbackDeviceType
                   (fallback_world op stack w)) as [r w']. }
  split; [reflexivity|]. split; [|split; [exact Heq|]].
  - unfold tls_is_dispatch_key_excluded, fallback_world. cbn.
    apply bool_decide_eq_true.
    destruct (decide (GetUnlazyDispatchKey ∈ excluded_ (tls w))) as [Hin|Hout].
    + apply elem_of_union. by left.
    + apply elem_of_union. right. apply elem_of_difference.
      split; [by apply elem_of_singleton | done].
  - intros Hout. rewrite Heq. unfold tls_is_dispatch_key_excluded, guard_released. cbn.
    apply bool_decide_eq_false. rewrite elem_of_difference.
    intros [_ Hnot]. apply Hnot. apply elem_of_difference.
    split; [by apply elem_of_singleton | done].
Qed.

(** C7.  Inside the mode, given a tensor that is not on the lazy device
    type, [PrepareTensorForMetaKernel] logs the move and returns a new
    deferred value: a handle on a lazy tensor bound to the backend form of
    the given device whose payload is the given tensor.  The result is on
    the lazy device type and is not the input. *)
Theorem prepare_wraps_ordinary_value
    (tensor : Tensor) (lazy_device : Device) (w : World Ext) :
  in_lazy_mode w = (Ok true, w) →
  type (Tensor_device tensor) ≠ kLazy →
  PrepareTensorForMetaKernel tensor lazy_device w
  = (Ok (DeferredValue (LtcTensor (atenDeviceToBackendDevice lazy_device) (Some tensor))),
     record (move_warning tensor lazy_device) w)
  ∧ on_lazy_device
      (DeferredValue (LtcTensor (atenDeviceToBackendDevice lazy_device) (Some tensor)))
    = true
  ∧ DeferredValue (LtcTensor (atenDeviceToBackendDevice lazy_device) (Some tensor))
    ≠ tensor.
Proof.
  intros Hin%in_lazy_mode_true Hdev. split; [|split].
  - unfold PrepareTensorForMetaKernel. unfold_M.
    destruct (0 <? nest_counter w) eqn:E; [|lia]. cbn.
    unfold on_lazy_device. rewrite bool_decide_eq_false_2 by done. cbn.
    destruct tensor as [dev data|[bound payload]]; [reflexivity|].
    exfalso. by apply Hdev.
  - reflexivity.
  - intros Heq. apply Hdev. rewrite <- Heq. reflexivity.
Qed.

(** C8 (amended).  Inside the mode, on a tensor that is on the lazy device
    type and whose device names no index, [PrepareTensorForMetaKernel] logs
    the skip-move warning and returns the tensor itself; applied again to
    its result it does the same: two applications in sequence return the
    same tensor and leave nothing but the two warnings. *)
Theorem prepare_idempotent_on_deferred_value
    (tensor : Tensor) (d1 d2 : Device) (w : World Ext) :
  in_lazy_mode w = (Ok true, w) →
  on_lazy_device tensor = true →
  has_index (Tensor_device tensor) = false →
  PrepareTensorForMetaKernel tensor d1 w
  = (Ok tensor, record (skip_move_warning tensor) w)
  ∧ (let* once := PrepareTensorForMetaKernel tensor d1 in
     PrepareTensorForMetaKernel once d2) w
    = (Ok tensor, record (skip_move_warning tensor) (record (skip_move_warning tensor) w)).
Proof.
  intros Hin%in_lazy_mode_true Hlazy Hidx.
  assert (∀ d w1, 0 < nest_counter w1 →
            PrepareTensorForMetaKernel tensor d w1
            = (Ok tensor, record (skip_move_warning tensor) w1)) as Hone.
  { intros d w1 H1. unfold PrepareTensorForMetaKernel. unfold_M.
    destruct (0 <? nest_counter w1) eqn:E; [|lia]. cbn.
    rewrite Hlazy. cbn. rewrite Hidx. reflexivity. }
  split; [by apply Hone|].
  unfold bind at 1. rewrite Hone by done. by apply Hone.
Qed.

(** C9.  Whenever [PrepareTensorForMetaKernel] returns a tensor, that
    tensor is on the lazy device type: outside the mode, inside the mode on
    a tensor already there, and inside the mode on any other tensor. *)
Theorem prepare_returns_deferred_value
    (tensor : Tensor) (lazy_device : Device) (w w' : World Ext) (result : Tensor) :
  PrepareTensorForMetaKernel tensor lazy_device w = (Ok result, w') →
  on_lazy_device result = true.
Proof.
  unfold PrepareTensorForMetaKernel. unfold_M.
  destruct (0 <? nest_counter w); cbn.
  - destruct (on_lazy_device tensor) eqn:Hlazy; cbn.
    + destruct (has_index (Tensor_device tensor)); cbn; [discriminate|].
      intros [= <- _]. exact Hlazy.
    + intros [= <- _]. destruct tensor as [dev data|[bound payload]]; [reflexivity|].
      discriminate Hlazy.
  - destruct (on_lazy_device tensor) eqn:Hlazy; cbn; [|discriminate].
    intros [= <- _]. exact Hlazy.
Qed.

(** ** Further properties of the calls *)

Lemma set_nest_counter_same (w : World Ext) : set_nest_counter (nest_counter w) w = w.
Proof. by destruct w. Qed.

(** Calls nested in a scope that stays open only move the counter. *)
Lemma nested_run cs : ∀ (w : World Ext) k k',
  size_t_range w →
  counter_fits cs w = true →
  balance cs k = Some k' →
  Z.of_nat k < nest_counter w →
  run cs w = set_nest_counter (nest_counter w - Z.of_nat k + Z.of_nat k') w.
Proof.
  induction cs as [|c cs IH]; intros w k k' [Hlo Hhi] Hfit Hbal Hk.
  - cbn in Hbal. injection Hbal as <-. cbn [run].
    replace (nest_counter w - Z.of_nat k + Z.of_nat k) with (nest_counter w) by lia.
    symmetry. apply set_nest_counter_same.
  - cbn [counter_fits balance run] in *. apply andb_prop in Hfit as [Hc Hrest].
    rewrite size_t_modulus_eq in Hhi.
    destruct c as [device|device].
    + unfold SIZE_MAX in Hc. rewrite size_t_modulus_eq in Hc.
      assert (after (Enter device) w = set_nest_counter (nest_counter w + 1) w) as Hafter.
      { unfold after, perform. rewrite LazyModeEnter_nested by lia. cbn.
        rewrite size_t_modulus_eq, Z.mod_small by lia. reflexivity. }
      rewrite Hafter in *.
      rewrite (IH _ (S k) k'); [| | exact Hrest | exact Hbal |].
      * unfold set_nest_counter. cbn. f_equal. lia.
      * unfold size_t_range. cbn. rewrite size_t_modulus_eq. lia.
      * cbn [nest_counter set_nest_counter]. lia.
    + destruct k as [|j]; [discriminate|].
      assert (after (Exit device) w = set_nest_counter (nest_counter w - 1) w) as Hafter.
      { unfold after, perform.
        rewrite LazyModeExit_nested by (rewrite size_t_modulus_eq; lia). reflexivity. }
      rewrite Hafter in *.
      rewrite (IH _ j k'); [| | exact Hrest | exact Hbal |].
      * unfold set_nest_counter. cbn. f_equal. lia.
      * unfold size_t_range. cbn. rewrite size_t_modulus_eq. lia.
      * cbn [nest_counter set_nest_counter]. lia.
Qed.

Lemma unlazy_handler_outside_eq op stack w :
  nest_counter w ≤ 0 →
  unlazy_handler op stack w
  = ((ts_eager_fallback op stack EagerFallbackDeviceType (fallback_world op stack w)).1,
     guard_released w
       (ts_eager_fallback op stack EagerFallbackDeviceType (fallback_world op stack w)).2).
Proof.
  intros H. unfold unlazy_handler, scoped, ExcludeDispatchKeyGuard_ctor. unfold_M.
  destruct (0 <? nest_counter w) eqn:E; [lia|].
  unfold record, set_tls. cbn. rewrite <- app_assoc. cbn.
  fold (fallback_world op stack w).
  by destruct (ts_eager_fallback op stack EagerFallbackDeviceType
                 (fallback_world op stack w)) as [r w'].
Qed.

(** X1.  Inside an open scope a balanced sequence of calls is invisible:
    when the counter is positive and does not wrap, the state of the thread
    after the sequence is the state before it, trace included, so no flag
    was written, nothing was logged and the executor was not called. *)
Theorem nested_balanced_sequence_is_invisible (w : World Ext) (cs : list Call) :
  size_t_range w →
  0 < nest_counter w →
  counter_fits cs w = true →
  balanced cs = true →
  run cs w = w.
Proof.
  intros Hr Hpos Hfit Hbal. unfold balanced in Hbal.
  destruct (balance cs 0) as [[|k]|] eqn:E; try discriminate.
  rewrite (nested_run cs w 0%nat 0%nat Hr Hfit E) by (cbn; lia).
  cbn. rewrite Z.sub_0_r, Z.add_0_r. apply set_nest_counter_same.
Qed.

(** X2.  [_lazy_mode_inc] followed by [_lazy_mode_dec] is a round trip
    when the counter is below SIZE_MAX: both return the value the counter
    had, and the state is as before. *)
Theorem lazy_mode_inc_dec_round_trip (w : World Ext) :
  0 ≤ nest_counter w < SIZE_MAX →
  (let* before := _lazy_mode_inc in
   let* after := _lazy_mode_dec in
   ret (before, after)) w
  = (Ok (nest_counter w, nest_counter w), w).
Proof.
  intros [Hlo Hhi]. unfold SIZE_MAX in Hhi. rewrite size_t_modulus_eq in Hhi.
  unfold_M. rewrite size_t_modulus_eq.
  rewrite (Z.mod_small (nest_counter w + 1)) by lia.
  destruct (0 <? nest_counter w + 1) eqn:E; [|lia]. cbn.
  replace (nest_counter w + 1 - 1) with (nest_counter w) by lia.
  rewrite Z.mod_small by lia.
  unfold set_nest_counter. cbn. by destruct w.
Qed.

(** X3.  At the bound the counter wraps: an Enter that finds the counter
    at SIZE_MAX returns normally and leaves it at 0 without writing a flag;
    [in_lazy_mode] then answers false and the next Exit fails with
    ScopeUnderflow. *)
Theorem enter_at_size_max_wraps (d d' : Device) (w : World Ext) :
  nest_counter w = SIZE_MAX →
  LazyModeEnter d w = (Ok tt, set_nest_counter 0 w)
  ∧ in_lazy_mode (set_nest_counter 0 w) = (Ok false, set_nest_counter 0 w)
  ∧ LazyModeExit d' (set_nest_counter 0 w) = (Throw ScopeUnderflow, set_nest_counter 0 w).
Proof.
  intros H. split; [|split].
  - rewrite LazyModeEnter_nested by (rewrite H; discriminate).
    rewrite H. reflexivity.
  - reflexivity.
  - apply LazyModeExit_underflow. cbn. lia.
Qed.



(** X8.  Outside the mode [PrepareTensorForMetaKernel] logs nothing and
    changes nothing: a tensor on the lazy device type comes back as it is,
    whether or not its device names an index, and any other tensor fails the
    internal assertion. *)
Theorem prepare_outside_mode (tensor : Tensor) (lazy_device : Device) (w : World Ext) :
  in_lazy_mode w = (Ok false, w) →
  PrepareTensorForMetaKernel tensor lazy_device w
  = (if on_lazy_device tensor
     then Ok tensor
     else Throw (InternalAssertError "tensor.device().type() == c10::kLazy"),
     w).
Proof.
  intros H%in_lazy_mode_false. unfold PrepareTensorForMetaKernel. unfold_M.
  destruct (0 <? nest_counter w) eqn:E; [lia|]. cbn.
  by destruct (on_lazy_device tensor).
Qed.

(** X9.  [PrepareTensorForMetaKernel] reads its device argument only to
    wrap a tensor: outside the mode, or on a tensor already on the lazy
    device type, two devices give the same result and the same state. *)
Theorem prepare_ignores_device_unless_wrapping
    (tensor : Tensor) (d1 d2 : Device) (w : World Ext) :
  in_lazy_mode w = (Ok false, w) ∨ on_lazy_device tensor = true →
  PrepareTensorForMetaKernel tensor d1 w = PrepareTensorForMetaKernel tensor d2 w.
Proof.
  intros H. unfold PrepareTensorForMetaKernel. unfold_M.
  destruct (0 <? nest_counter w) eqn:E; cbn; [|reflexivity].
  destruct H as [H%in_lazy_mode_false | ->]; [lia | reflexivity].
Qed.

(** X10.  Outside the mode the handler gives the key sets back as it found
    them, provided the eager fallback does: when the fallback leaves the
    thread-local key sets as they were at its call, the key sets after the
    handler are those before it, whether the handler's key was excluded
    before or not and whether the fallback returned or threw. *)
Theorem unlazy_handler_restores_key_sets
    (op : OperatorHandle) (stack : Stack) (w : World Ext) :
  in_lazy_mode w = (Ok false, w) →
  tls (ts_eager_fallback op stack EagerFallbackDeviceType (fallback_world op stack w)).2
  = tls (fallback_world op stack w) →
  tls (unlazy_handler op stack w).2 = tls w.
Proof.
  intros H%in_lazy_mode_false Hframe.
  rewrite unlazy_handler_outside_eq by done.
  unfold guard_released. cbn. rewrite Hframe. unfold fallback_world. cbn.
  destruct (tls w) as [inc exc]. cbn. f_equal.
  generalize GetUnlazyDispatchKey. intros k. clear. set_solver.
Qed.

(** ** The mode as the other entry points see it *)

Section Scopes.

(** As for the sequences above: the graph executor leaves the counter, the
    key sets and the trace of this thread alone. *)
Hypothesis SyncLiveTensorsGraph_frame : ∀ device devices wait w,
  nest_counter (SyncLiveTensorsGraph device devices wait w).2 = nest_counter w
  ∧ tls (SyncLiveTensorsGraph device devices wait w).2 = tls w
  ∧ trace (SyncLiveTensorsGraph device devices wait w).2 = trace w.

Lemma open_scopes_counter (w0 : World Ext) (cs : list Call) (k : nat) :
  thread_start w0 →
  counter_fits cs w0 = true →
  balance cs 0 = Some k →
  nest_counter (run cs w0) = Z.of_nat k.
Proof.
  intros Hstart Hfit Hbal.
  rewrite (balance_counter SyncLiveTensorsGraph_frame _ cs w0 0%nat k
             (mode_inv_start w0 Hstart) Hfit Hbal).
  - destruct Hstart as [-> _]. cbn. lia.
  - destruct Hstart as [-> _]. cbn. lia.
Qed.

(** X11.  What [PrepareTensorForMetaKernel] does with a tensor that is not
    on the lazy device type follows the scopes: after calls on a fresh
    thread that leave no scope open it fails the internal assertion and
    changes nothing; after calls that leave a scope open it logs the move
    and returns the tensor wrapped for the given device. *)
Theorem prepare_follows_open_scopes
    (w0 : World Ext) (cs : list Call) (k : nat) (tensor : Tensor) (lazy_device : Device) :
  thread_start w0 →
  counter_fits cs w0 = true →
  balance cs 0 = Some k →
  on_lazy_device tensor = false →
  PrepareTensorForMetaKernel tensor lazy_device (run cs w0)
  = match k with
    | O => (Throw (InternalAssertError "tensor.device().type() == c10::kLazy"),
            run cs w0)
    | S _ => (Ok (CreateAtenFromLtcTensor
                    (GetOrCreateLtcTensor tensor (atenDeviceToBackendDevice lazy_device))),
              record (move_warning tensor lazy_device) (run cs w0))
    end.
Proof.
  intros Hstart Hfit Hbal Hdev.
  pose proof (open_scopes_counter w0 cs k Hstart Hfit Hbal) as Hn.
  unfold PrepareTensorForMetaKernel. unfold_M. rewrite Hn, Hdev.
  destruct k as [|k]; reflexivity.
Qed.

(** X12.  Which way the handler goes follows the scopes as well: after
    calls on a fresh thread that leave a scope open it redispatches to the
    Lazy key; after calls that leave no scope open it forwards to the eager
    fallback under the exclusion guard. *)
Theorem unlazy_handler_follows_open_scopes
    (w0 : World Ext) (cs : list Call) (k : nat) (op : OperatorHandle) (stack : Stack) :
  thread_start w0 →
  counter_fits cs w0 = true →
  balance cs 0 = Some k →
  unlazy_handler op stack (run cs w0)
  = match k with
    | O => ((ts_eager_fallback op stack EagerFallbackDeviceType
               (fallback_world op stack (run cs w0))).1,
            guard_released (run cs w0)
              (ts_eager_fallback op stack EagerFallbackDeviceType
                 (fallback_world op stack (run cs w0))).2)
    | S _ => redispatchBoxed op {[Lazy]} stack
               (record (EvRedispatchBoxed op {[Lazy]} stack)
                  (record (EvLogWarning
                             [LogText "unlazy_handler is a no-op inside lazy mode"])
                     (run cs w0)))
    end.
Proof.
  intros Hstart Hfit Hbal.
  pose proof (open_scopes_counter w0 cs k Hstart Hfit Hbal) as Hn.
  destruct k as [|k].
  - apply unlazy_handler_outside_eq. rewrite Hn. cbn. lia.
  - unfold unlazy_handler. unfold_M. rewrite Hn. reflexivity.
Qed.

End Scopes.

End LazyMode.

(** ** The properties at work on the reference environment *)

Lemma ref_SyncLiveTensorsGraph_frame device devices wait (w : World nat) :
  nest_counter (ref_SyncLiveTensorsGraph device devices wait w).2 = nest_counter w
  ∧ tls (ref_SyncLiveTensorsGraph device devices wait w).2 = tls w
  ∧ trace (ref_SyncLiveTensorsGraph device devices wait w).2 = trace w.
Proof.
  unfold ref_SyncLiveTensorsGraph.
  destruct (has_index (aten_device device)); cbn; auto.
Defined.

Lemma fresh_thread_start : thread_start fresh_thread.
Proof. split; [reflexivity | apply not_elem_of_empty]. Defined.

Lemma fresh_thread_range : size_t_range fresh_thread.
Proof. unfold size_t_range. cbn. rewrite size_t_modulus_eq. lia. Defined.

(** C1 at work, on Scenarios A and B in one run: after two nested scopes,
    an Exit too many and a new Enter, the flag is set and the counter is 1. *)
Lemma route_to_deferred_iff_counter_positive_witness :
  thread_start fresh_thread
  ∧ counter_fits ref_toString ref_SyncLiveTensorsGraph nested_then_underflow fresh_thread
    = true
  ∧ (route_to_deferred
       (run ref_toString ref_SyncLiveTensorsGraph nested_then_underflow fresh_thread)
     = true
     ↔ 0 < nest_counter
             (run ref_toString ref_SyncLiveTensorsGraph nested_then_underflow fresh_thread)).
Proof.
  assert (counter_fits ref_toString ref_SyncLiveTensorsGraph nested_then_underflow
            fresh_thread = true) as Hfit by (vm_compute; reflexivity).
  split; [exact fresh_thread_start|]. split; [exact Hfit|].
  exact (proj1 (route_to_deferred_iff_counter_positive
                  ref_toString ref_SyncLiveTensorsGraph ref_SyncLiveTensorsGraph_frame
                  fresh_thread nested_then_underflow fresh_thread_start Hfit)).
Defined.

(** C2 at work, on the run of Scenarios A and B: of the three Exit calls only the second
    finds the counter at 1, and it alone is synchronised, on its device. *)
Lemma sync_once_per_outermost_exit_witness :
  size_t_range fresh_thread
  ∧ sync_calls
      (events_since fresh_thread
         (run ref_toString ref_SyncLiveTensorsGraph nested_then_underflow fresh_thread))
    = [(mkBackendDevice lazy_device, ["lazy"%string], true)].
Proof.
  split; [exact fresh_thread_range|].
  exact (eq_trans
           (proj1 (sync_once_per_outermost_exit
                     ref_toString ref_SyncLiveTensorsGraph ref_SyncLiveTensorsGraph_frame
                     fresh_thread nested_then_underflow fresh_thread_range))
           eq_refl).
Defined.

(** C4 at work, on Scenario A run by a thread that has opened and closed a
    scope before: the key sets are restored, the flag is set once and
    cleared once, and it is the first call of the scenario that sets it. *)
Lemma balanced_sequence_restores_flags_witness :
  balanced scenario_A = true
  ∧ tls (run ref_toString ref_SyncLiveTensorsGraph scenario_A
           (run ref_toString ref_SyncLiveTensorsGraph
              [Enter cpu_device; Exit cpu_device] fresh_thread))
    = tls (run ref_toString ref_SyncLiveTensorsGraph
             [Enter cpu_device; Exit cpu_device] fresh_thread)
  ∧ flag_writes true
      (events_since
         (run ref_toString ref_SyncLiveTensorsGraph
            [Enter cpu_device; Exit cpu_device] fresh_thread)
         (run ref_toString ref_SyncLiveTensorsGraph scenario_A
            (run ref_toString ref_SyncLiveTensorsGraph
               [Enter cpu_device; Exit cpu_device] fresh_thread))) = 1%nat
  ∧ flag_writes false
      (events_since
         (run ref_toString ref_SyncLiveTensorsGraph
            [Enter cpu_device; Exit cpu_device] fresh_thread)
         (run ref_toString ref_SyncLiveTensorsGraph scenario_A
            (run ref_toString ref_SyncLiveTensorsGraph
               [Enter cpu_device; Exit cpu_device] fresh_thread))) = 1%nat
  ∧ flag_writes true
      (events_since
         (run ref_toString ref_SyncLiveTensorsGraph
            [Enter cpu_device; Exit cpu_device] fresh_thread)
         (after ref_toString ref_SyncLiveTensorsGraph (Enter lazy_device)
            (run ref_toString ref_SyncLiveTensorsGraph
               [Enter cpu_device; Exit cpu_device] fresh_thread))) = 1%nat
  ∧ route_to_deferred
      (after ref_toString ref_SyncLiveTensorsGraph (Enter lazy_device)
         (run ref_toString ref_SyncLiveTensorsGraph
            [Enter cpu_device; Exit cpu_device] fresh_thread)) = true.
Proof.
  assert (counter_fits ref_toString ref_SyncLiveTensorsGraph
            ([Enter cpu_device; Exit cpu_device] ++ scenario_A) fresh_thread = true)
    as Hfit by (vm_compute; reflexivity).
  assert (balanced scenario_A = true) as Hbal by reflexivity.
  destruct (balanced_sequence_restores_flags
              ref_toString ref_SyncLiveTensorsGraph ref_SyncLiveTensorsGraph_frame
              fresh_thread [Enter cpu_device; Exit cpu_device] scenario_A
              fresh_thread_start Hfit Hbal) as (Htls & _ & _ & _ & Honce & Hstep).
  destruct (Hstep [] (Enter lazy_device)
              [Enter lazy_device; Exit lazy_device; Exit lazy_device] eq_refl)
    as (Hset & _ & Hup & _ & _).
  destruct (Honce lazy_device lazy_device [Enter lazy_device; Exit lazy_device]
              eq_refl eq_refl eq_refl) as [Hsets Hclears].
  split; [exact Hbal|]. split; [exact Htls|].
  split; [exact Hsets|]. split; [exact Hclears|].
  split; [exact Hset | exact (proj2 (Hup eq_refl))].
Defined.

(** C3 at work, on Scenario B: a bare Exit on a fresh thread. *)
Lemma exit_at_depth_zero_underflows_witness :
  nest_counter fresh_thread = 0
  ∧ LazyModeExit ref_toString ref_SyncLiveTensorsGraph lazy_device fresh_thread
    = (Throw ScopeUnderflow, fresh_thread).
Proof.
  split; [reflexivity|].
  exact (proj2 (exit_at_depth_zero_underflows
                  ref_toString ref_SyncLiveTensorsGraph lazy_device fresh_thread
                  eq_refl)).
Defined.

(** C10 at work: two devices, on a thread two scopes deep. *)
Lemma enter_and_nested_exit_ignore_device_witness :
  LazyModeEnter cpu_device thread_nested_twice = LazyModeEnter lazy_device_0 thread_nested_twice
  ∧ LazyModeExit ref_toString ref_SyncLiveTensorsGraph cpu_device thread_nested_twice
    = LazyModeExit ref_toString ref_SyncLiveTensorsGraph lazy_device_0 thread_nested_twice.
Proof.
  destruct (enter_and_nested_exit_ignore_device
              ref_toString ref_SyncLiveTensorsGraph
              cpu_device lazy_device_0 thread_nested_twice) as [Henter Hexit].
  split; [exact Henter|]. apply Hexit.
  - unfold size_t_range. cbn. rewrite size_t_modulus_eq. lia.
  - cbn. lia.
Defined.

(** C5 at work: the handler called on a thread inside the mode. *)
Lemma unlazy_handler_inside_mode_redispatches_witness :
  unlazy_handler ref_redispatchBoxed ref_ts_eager_fallback kCPU
    add_op [TensorValue wrapped_tensor] thread_in_mode
  = ref_redispatchBoxed add_op {[Lazy]} [TensorValue wrapped_tensor]
      (mkWorld 1 (tls thread_in_mode)
         (trace thread_in_mode
          ++ [EvLogWarning [LogText "unlazy_handler is a no-op inside lazy mode"];
              EvRedispatchBoxed add_op {[Lazy]} [TensorValue wrapped_tensor]])
         0%nat).
Proof.
  apply (unlazy_handler_inside_mode_redispatches
           ref_redispatchBoxed ref_ts_eager_fallback kCPU
           add_op [TensorValue wrapped_tensor] thread_in_mode).
  reflexivity.
Defined.

(** C6 at work, on a failing fallback: the empty stack makes the reference
    fallback throw, and the key is not excluded afterwards. *)
Lemma unlazy_handler_outside_mode_scoped_exclusion_witness :
  (unlazy_handler ref_redispatchBoxed ref_ts_eager_fallback kCPU add_op [] fresh_thread).1
  = Throw (CollaboratorError "empty stack")
  ∧ tls_is_dispatch_key_excluded GetUnlazyDispatchKey
      (fallback_world kCPU add_op [] fresh_thread) = true
  ∧ tls_is_dispatch_key_excluded GetUnlazyDispatchKey
      (unlazy_handler ref_redispatchBoxed ref_ts_eager_fallback kCPU add_op []
         fresh_thread).2 = false.
Proof.
  destruct (unlazy_handler_outside_mode_scoped_exclusion
              ref_redispatchBoxed ref_ts_eager_fallback kCPU add_op [] fresh_thread)
    as (_ & Hcall & Heq & Hexit).
  - reflexivity.
  - split; [by rewrite Heq|]. split; [exact Hcall|].
    apply Hexit. apply not_elem_of_empty.
Defined.

(** C7 at work, on the first half of Scenario C. *)
Lemma prepare_wraps_ordinary_value_witness :
  PrepareTensorForMetaKernel cpu_tensor lazy_device thread_in_mode
  = (Ok wrapped_tensor, record (move_warning cpu_tensor lazy_device) thread_in_mode).
Proof.
  apply (prepare_wraps_ordinary_value cpu_tensor lazy_device thread_in_mode).
  - reflexivity.
  - cbn. discriminate.
Defined.

(** C8 at work, on the value the first half of Scenario C returned. *)
Lemma prepare_idempotent_on_deferred_value_witness :
  (let* once := PrepareTensorForMetaKernel wrapped_tensor lazy_device in
   PrepareTensorForMetaKernel once lazy_device) thread_in_mode
  = (Ok wrapped_tensor,
     record (skip_move_warning wrapped_tensor)
       (record (skip_move_warning wrapped_tensor) thread_in_mode)).
Proof.
  apply (prepare_idempotent_on_deferred_value
           wrapped_tensor lazy_device lazy_device thread_in_mode).
  - reflexivity.
  - reflexivity.
  - reflexivity.
Defined.

(** C8, the claim as stated, fails: inside the mode, a deferred value whose
    device names an index makes [PrepareTensorForMetaKernel] fail its
    assertion, after the warning; no value is returned. *)
Lemma prepare_fails_on_indexed_deferred_value :
  on_lazy_device indexed_lazy_tensor = true
  ∧ in_lazy_mode thread_in_mode = (Ok true, thread_in_mode)
  ∧ PrepareTensorForMetaKernel indexed_lazy_tensor lazy_device thread_in_mode
    = (Throw (InternalAssertError "!tensor.device().has_index()"),
       record (skip_move_warning indexed_lazy_tensor) thread_in_mode).
Proof. repeat split. Qed.

(** C9 at work, on the first half of Scenario C. *)
Lemma prepare_returns_deferred_value_witness :
  PrepareTensorForMetaKernel cpu_tensor lazy_device thread_in_mode
  = (Ok wrapped_tensor, record (move_warning cpu_tensor lazy_device) thread_in_mode)
  ∧ on_lazy_device wrapped_tensor = true.
Proof.
  split; [reflexivity|].
  apply (prepare_returns_deferred_value
           cpu_tensor lazy_device thread_in_mode
           (record (move_warning cpu_tensor lazy_device) thread_in_mode)
           wrapped_tensor).
  reflexivity.
Defined.

(** ** The scenarios of the specification, run *)

(** Scenario A: the flag after each of Enter, Enter, Exit, Exit, and the
    one synchronisation, made by the last Exit. *)
Example scenario_A_flags :
  flags_along ref_toString ref_SyncLiveTensorsGraph scenario_A fresh_thread
  = [true; true; true; false]
  ∧ trace (run ref_toString ref_SyncLiveTensorsGraph scenario_A fresh_thread)
    = [EvTlsSetIncluded Lazy true;
       EvTlsSetIncluded Lazy false;
       EvSyncLiveTensorsGraph (mkBackendDevice lazy_device) ["lazy"%string] true].
Proof. split; reflexivity. Qed.

(** Scenario C, second half: outside the mode a deferred value comes back
    as it is, and nothing is logged. *)
Example scenario_C_outside_mode :
  PrepareTensorForMetaKernel wrapped_tensor lazy_device fresh_thread
  = (Ok wrapped_tensor, fresh_thread).
Proof. reflexivity. Qed.

(** Outside the mode an ordinary value fails the assertion. *)
Example prepare_outside_mode_ordinary_value :
  PrepareTensorForMetaKernel cpu_tensor lazy_device fresh_thread
  = (Throw (InternalAssertError "tensor.device().type() == c10::kLazy"), fresh_thread).
Proof. reflexivity. Qed.

(** Scenario D: outside the mode the handler hands the stack to the
    fallback, which resolves the deferred operand; the key sets are as
    before. *)
Example scenario_D_fallback :
  (unlazy_handler ref_redispatchBoxed ref_ts_eager_fallback kCPU
     add_op [TensorValue wrapped_tensor; ScalarValue 1] fresh_thread).1
  = Ok [TensorValue cpu_tensor; ScalarValue 1]
  ∧ tls (unlazy_handler ref_redispatchBoxed ref_ts_eager_fallback kCPU
           add_op [TensorValue wrapped_tensor; ScalarValue 1] fresh_thread).2
    = tls fresh_thread.
Proof.
  split; reflexivity.
Qed.

(** ** The further properties at work *)

Lemma thread_in_mode_range : size_t_range thread_in_mode.
Proof. unfold size_t_range. cbn. rewrite size_t_modulus_eq. lia. Defined.

(** X1 at work: Scenario A run inside an open scope. *)
Lemma nested_balanced_sequence_is_invisible_witness :
  run ref_toString ref_SyncLiveTensorsGraph scenario_A thread_in_mode = thread_in_mode.
Proof.
  apply (nested_balanced_sequence_is_invisible
           ref_toString ref_SyncLiveTensorsGraph thread_in_mode scenario_A).
  - exact thread_in_mode_range.
  - cbn. lia.
  - vm_compute. reflexivity.
  - reflexivity.
Defined.

(** X2 at work, at counter 0: the first increment and the last decrement
    both return 0. *)
Lemma lazy_mode_inc_dec_round_trip_witness :
  (let* before := _lazy_mode_inc in
   let* after := _lazy_mode_dec in
   ret (before, after)) fresh_thread
  = (Ok (0, 0), fresh_thread).
Proof.
  apply (lazy_mode_inc_dec_round_trip fresh_thread).
  cbn. unfold SIZE_MAX. rewrite size_t_modulus_eq. lia.
Defined.

(** X3 at work: a thread whose counter is at SIZE_MAX. *)
Lemma enter_at_size_max_wraps_witness :
  LazyModeEnter lazy_device
    (mkWorld SIZE_MAX (mkLocalDispatchKeySet {[Lazy]} ∅) [] 0%nat)
  = (Ok tt, mkWorld 0 (mkLocalDispatchKeySet {[Lazy]} ∅) [] 0%nat)
  ∧ LazyModeExit ref_toString ref_SyncLiveTensorsGraph lazy_device
      (mkWorld 0 (mkLocalDispatchKeySet {[Lazy]} ∅) [] 0%nat)
    = (Throw ScopeUnderflow, mkWorld 0 (mkLocalDispatchKeySet {[Lazy]} ∅) [] 0%nat).
Proof.
  destruct (enter_at_size_max_wraps
              ref_toString ref_SyncLiveTensorsGraph lazy_device lazy_device
              (mkWorld SIZE_MAX (mkLocalDispatchKeySet {[Lazy]} ∅) [] 0%nat) eq_refl)
    as (Henter & _ & Hexit).
  split; [exact Henter | exact Hexit].
Defined.


(** X5 at work, on the same failing Exit. *)
Lemma outermost_exit_leaves_mode_even_if_sync_throws_witness :
  (LazyModeExit ref_toString ref_SyncLiveTensorsGraph lazy_device_0 thread_in_mode).1
  = Throw (CollaboratorError "unknown device")
  ∧ nest_counter (after ref_toString ref_SyncLiveTensorsGraph (Exit lazy_device_0)
                    thread_in_mode) = 0
  ∧ route_to_deferred (after ref_toString ref_SyncLiveTensorsGraph (Exit lazy_device_0)
                         thread_in_mode) = false.
Proof.
  destruct (outermost_exit_leaves_mode_even_if_sync_throws
              ref_toString ref_SyncLiveTensorsGraph ref_SyncLiveTensorsGraph_frame
              lazy_device_0 thread_in_mode eq_refl) as (Hres & Hn & Hflag & _).
  split; [by rewrite Hres|]. split; [exact Hn | exact Hflag].
Defined.

(** X6 at work: the run of Scenarios A and B leaves one scope open. *)
Lemma counter_counts_open_scopes_witness :
  nest_counter (run ref_toString ref_SyncLiveTensorsGraph
                  [Enter lazy_device; Enter cpu_device; Exit cpu_device] fresh_thread)
  = 1
  ∧ route_to_deferred (run ref_toString ref_SyncLiveTensorsGraph
                         [Enter lazy_device; Enter cpu_device; Exit cpu_device]
                         fresh_thread)
    = true.
Proof.
  assert (counter_fits ref_toString ref_SyncLiveTensorsGraph
            [Enter lazy_device; Enter cpu_device; Exit cpu_device] fresh_thread = true)
    as Hfit by (vm_compute; reflexivity).
  exact (counter_counts_open_scopes
           ref_toString ref_SyncLiveTensorsGraph ref_SyncLiveTensorsGraph_frame
           fresh_thread [Enter lazy_device; Enter cpu_device; Exit cpu_device] 1%nat
           fresh_thread_start Hfit eq_refl).
Defined.

(** X8 at work: outside the mode a lazy tensor whose device names an index
    comes back unchanged. *)
Lemma prepare_outside_mode_witness :
  PrepareTensorForMetaKernel indexed_lazy_tensor cpu_device fresh_thread
  = (Ok indexed_lazy_tensor, fresh_thread).
Proof.
  exact (prepare_outside_mode indexed_lazy_tensor cpu_device fresh_thread eq_refl).
Defined.

(** X9 at work: a wrapped tensor inside the mode, two devices. *)
Lemma prepare_ignores_device_unless_wrapping_witness :
  PrepareTensorForMetaKernel wrapped_tensor cpu_device thread_in_mode
  = PrepareTensorForMetaKernel wrapped_tensor lazy_device_0 thread_in_mode.
Proof.
  apply (prepare_ignores_device_unless_wrapping
           wrapped_tensor cpu_device lazy_device_0 thread_in_mode).
  right. reflexivity.
Defined.

(** X10 at work: the handler called while its key is already excluded, with
    a fallback that throws. *)
Lemma unlazy_handler_restores_key_sets_witness :
  tls (unlazy_handler ref_redispatchBoxed ref_ts_eager_fallback kCPU add_op []
         (mkWorld 0 (mkLocalDispatchKeySet ∅ {[TESTING_ONLY_GenericWrapper]}) [] 0%nat)).2
  = mkLocalDispatchKeySet ∅ {[TESTING_ONLY_GenericWrapper]}.
Proof.
  apply (unlazy_handler_restores_key_sets
           ref_redispatchBoxed ref_ts_eager_fallback kCPU add_op []
           (mkWorld 0 (mkLocalDispatchKeySet ∅ {[TESTING_ONLY_GenericWrapper]}) [] 0%nat)).
  - reflexivity.
  - reflexivity.
Defined.

(** X11 at work: Scenario C after an Enter, and after an Enter and an Exit. *)
Lemma prepare_follows_open_scopes_witness :
  PrepareTensorForMetaKernel cpu_tensor lazy_device
    (run ref_toString ref_SyncLiveTensorsGraph [Enter lazy_device; Exit lazy_device]
       fresh_thread)
  = (Throw (InternalAssertError "tensor.device().type() == c10::kLazy"),
     run ref_toString ref_SyncLiveTensorsGraph [Enter lazy_device; Exit lazy_device]
       fresh_thread).
Proof.
  assert (counter_fits ref_toString ref_SyncLiveTensorsGraph
            [Enter lazy_device; Exit lazy_device] fresh_thread = true)
    as Hfit by (vm_compute; reflexivity).
  exact (prepare_follows_open_scopes
           ref_toString ref_SyncLiveTensorsGraph ref_SyncLiveTensorsGraph_frame
           fresh_thread [Enter lazy_device; Exit lazy_device] 0%nat
           cpu_tensor lazy_device fresh_thread_start Hfit eq_refl eq_refl).
Defined.

(** X12 at work: Scenario D, the handler after an Enter and an Exit. *)
Lemma unlazy_handler_follows_open_scopes_witness :
  (unlazy_handler ref_redispatchBoxed ref_ts_eager_fallback kCPU
     add_op [TensorValue wrapped_tensor]
     (run ref_toString ref_SyncLiveTensorsGraph [Enter lazy_device; Exit lazy_device]
        fresh_thread)).1
  = Ok [TensorValue cpu_tensor].
Proof.
  assert (counter_fits ref_toString ref_SyncLiveTensorsGraph
            [Enter lazy_device; Exit lazy_device] fresh_thread = true)
    as Hfit by (vm_compute; reflexivity).
  rewrite (unlazy_handler_follows_open_scopes
             ref_toString ref_SyncLiveTensorsGraph ref_redispatchBoxed
             ref_ts_eager_fallback kCPU ref_SyncLiveTensorsGraph_frame
             fresh_thread [Enter lazy_device; Exit lazy_device] 0%nat
             add_op [TensorValue wrapped_tensor] fresh_thread_start Hfit eq_refl).
  reflexivity.
Defined.
